(** * A shallow embedding of the pretty printer (ast.ts, pretty-printer.ts)

    The printer is a recursive walk of the syntax tree that builds its output
    by string concatenation.  Strings are modelled as [string] (a sequence of
    8-bit code units), the numbers that hold offsets, widths and bit masks as
    [Z], optional fields as [option], a value that may be [undefined] as
    [option], and a thrown exception as the [Throw] outcome of a small error
    monad.  What the file uses without defining it is a parameter of the
    model: the ambient variable [sourceCode], the imported function
    [collectComments], and the function [printClassBody].

    The file has three parts: the embedding of the source, the vocabulary of
    the statements, and the lemmas and theorems. *)

From Stdlib Require Import ZArith List String Ascii Bool Lia.
From Stdlib Require Import Btauto.
Import ListNotations.

Local Open Scope string_scope.
Local Open Scope Z_scope.

(** * The embedding of the source *)

(** ** Outcomes of a call: a value or a thrown exception *)

Inductive Exception : Type :=
| UnsupportedNodeType (type : string)      (* Error(`Unsupported node type: ${node.type}`) *)
| UnsupportedStatementType (type : string) (* Error(`Unsupported statement type: ${statement.type}`) *)
| RangeError.                              (* String.prototype.repeat on a negative count *)

Inductive Result (A : Type) : Type :=
| Ok (value : A)
| Throw (e : Exception).

Arguments Ok {A} value.
Arguments Throw {A} e.

Definition bind {A B : Type} (r : Result A) (k : A -> Result B) : Result B :=
  match r with
  | Ok a => k a
  | Throw e => Throw e
  end.

Notation "x <- r ;; k" := (bind r (fun x => k))
  (at level 61, r at next level, right associativity).

(** [Array.prototype.map] with a callback that may throw: the callback runs on
    the elements from left to right and the first exception ends the loop. *)
Definition mapM {A B : Type} (f : A -> Result B) : list A -> Result (list B) :=
  fix go (l : list A) : Result (list B) :=
    match l with
    | [] => Ok []
    | x :: rest => y <- f x ;; ys <- go rest ;; Ok (y :: ys)
    end.

(** [Array.prototype.forEach] with a callback [(element, index) => output += ...]:
    [f element index] is the text the callback appends to [output]. *)
Definition forEach {A : Type} (f : A -> Z -> Result string) : list A -> Z -> string -> Result string :=
  fix go (l : list A) (index : Z) (output : string) : Result string :=
    match l with
    | [] => Ok output
    | x :: rest => piece <- f x index ;; go rest (index + 1) (output ++ piece)
    end.

(** ** JavaScript strings *)

(** A value that is a string or [undefined]. *)
Definition jsval : Type := option string.

(** Conversion to a string in a template literal or in [+=]. *)
Definition tpl (v : jsval) : string :=
  match v with
  | Some s => s
  | None => "undefined"
  end.

Definition tab : string := String (ascii_of_nat 9) EmptyString.
Definition nl : string := String (ascii_of_nat 10) EmptyString.

Fixpoint repeat_nat (s : string) (n : nat) : string :=
  match n with
  | O => ""
  | S n' => s ++ repeat_nat s n'
  end.

(** [s.repeat(count)]: an [undefined] count is 0, a negative one throws.  The
    count is an integer; the limit an engine puts on the length of a string is
    not modelled. *)
Definition repeat (s : string) (count : option Z) : Result string :=
  match count with
  | None => Ok ""
  | Some n => if n <? 0 then Throw RangeError else Ok (repeat_nat s (Z.to_nat n))
  end.

(** [s.substring(start, end)]: both indices are clamped to [0, length] and
    swapped when [start > end]. *)
Definition substring (s : string) (start end_ : Z) : string :=
  let len := Z.of_nat (String.length s) in
  let finalStart := Z.min (Z.max start 0) len in
  let finalEnd := Z.min (Z.max end_ 0) len in
  let from := Z.min finalStart finalEnd in
  let to := Z.max finalStart finalEnd in
  String.substring (Z.to_nat from) (Z.to_nat (to - from)) s.

(** White space and line terminators among the 8-bit code units. *)
Definition isWhiteSpace (c : ascii) : bool :=
  let n := nat_of_ascii c in
  ((9 <=? n) && (n <=? 13) || (n =? 32) || (n =? 160))%nat.

Fixpoint trimStart (s : string) : string :=
  match s with
  | EmptyString => EmptyString
  | String c rest => if isWhiteSpace c then trimStart rest else s
  end.

Fixpoint trimEnd (s : string) : string :=
  match s with
  | EmptyString => EmptyString
  | String c rest =>
      match trimEnd rest with
      | EmptyString => if isWhiteSpace c then EmptyString else String c EmptyString
      | rest' => String c rest'
      end
  end.

Definition trim (s : string) : string := trimEnd (trimStart s).

Fixpoint joinStrings (separator : string) (l : list string) : string :=
  match l with
  | [] => ""
  | [x] => x
  | x :: rest => x ++ separator ++ joinStrings separator rest
  end.

(** [array.join(separator)]: an [undefined] element is joined as the empty string. *)
Definition joinElement (v : jsval) : string :=
  match v with
  | Some s => s
  | None => ""
  end.

Definition join (separator : string) (l : list jsval) : string :=
  joinStrings separator (map joinElement l).

(** Truthiness of an optional boolean and of an optional number. *)
Definition truthy (b : option bool) : bool :=
  match b with
  | Some true => true
  | _ => false
  end.

Definition truthyNumber (n : option Z) : bool :=
  match n with
  | Some n => negb (n =? 0)
  | None => false
  end.

(** [x & mask] as a condition; [undefined & mask] is 0. *)
Definition hasFlag (x : option Z) (mask : Z) : bool :=
  match x with
  | Some n => negb (Z.land n mask =? 0)
  | None => false
  end.

(** ** ast.ts: flags *)

Module LineBreakFlags.
Definition None : Z := 0.
Definition Before : Z := Z.shiftl 1 0.
Definition After : Z := Z.shiftl 1 1.
Definition Both : Z := Z.shiftl 1 2.
End LineBreakFlags.

Module CommentTypeFlags.
Definition None : Z := 0.
Definition SingleLine : Z := Z.shiftl 1 0.
Definition Multiline : Z := Z.shiftl 1 1.
Definition Html : Z := Z.shiftl 1 2.
Definition JsDoc : Z := Z.shiftl 1 3.
Definition All : Z :=
  Z.lor (Z.lor (Z.lor (Z.shiftl 1 0) (Z.shiftl 1 1)) (Z.shiftl 1 2)) (Z.shiftl 1 3).
End CommentTypeFlags.

Module CommentPlacementFlags.
Definition None : Z := 0.
Definition Before : Z := Z.shiftl 1 0.
Definition After : Z := Z.shiftl 1 1.
End CommentPlacementFlags.

(** ** ast.ts: nodes *)

(** The [start] and [end] fields of [interface Node]. *)
Record Span : Type := { start : Z; end_ : Z }.

Inductive VarKind : Type := var | let_ | const.

Definition kindText (k : VarKind) : string :=
  match k with
  | var => "var"
  | let_ => "let"
  | const => "const"
  end.

Inductive MethodKind : Type := method | constructor.

(** Induction on a node reaches the nodes inside its lists, optional fields
    and records through the [_all] predicates generated here. *)
Scheme All for list.
Scheme All for option.

(** The interfaces whose values the printers receive through a cast and read
    field by field.  [N] is the type of nodes. *)
Record VariableDeclarator (N : Type) : Type :=
  { declarator_loc : Span; id : N; init : option N }.

Record BlockStatement (N : Type) : Type :=
  { block_loc : Span; block_body : list N }.

Record FunctionExpression (N : Type) : Type :=
  { function_loc : Span; params : list N; function_body : BlockStatement N }.

Record ClassBody (N : Type) : Type :=
  { class_body_loc : Span; class_body : list N }.

Scheme All for VariableDeclarator.
Scheme All for BlockStatement.
Scheme All for FunctionExpression.
Scheme All for ClassBody.

Record Comment : Type :=
  { comment_loc : Span;
    comment_value : string;
    comment_flag : option string }. (* 'before', 'after' *)

Arguments declarator_loc {N} _.
Arguments id {N} _.
Arguments init {N} _.
Arguments block_loc {N} _.
Arguments block_body {N} _.
Arguments function_loc {N} _.
Arguments params {N} _.
Arguments function_body {N} _.
Arguments class_body_loc {N} _.
Arguments class_body {N} _.

(** The tags [prettyPrint] has a case for. *)
Definition mappedTypes : list string :=
  [ "Program"; "ExpressionStatement"; "VariableDeclaration"; "VariableDeclarator";
    "Identifier"; "IfStatement"; "BlockStatement"; "FunctionDeclaration";
    "ClassDeclaration"; "ClassBody"; "MethodDefinition"; "FunctionExpression";
    "ReturnStatement"; "Literal"; "BinaryExpression"; "UnaryExpression";
    "CallExpression"; "MemberExpression"; "ArrayExpression"; "ObjectExpression";
    "Property"; "ArrowFunctionExpression"; "ThisExpression"; "SpreadElement";
    "ConditionalExpression"; "Comment" ].

Definition isMapped (type : string) : bool :=
  existsb (String.eqb type) mappedTypes.

(** A node, by its [type] tag.  The fields are those the printers read, and
    the [value] and [flag] of a comment and the [kind] of a class element,
    which they do not read (nor do they read the [value], [children] and
    [flag] of the other nodes, or the [value] of a literal).  A child that the
    printers send through [prettyPrint] or [printStatement], which look at its
    tag, is a [Node]; a child that a printer reads through a cast has the
    interface the cast names.  [Other] is an object whose tag is none of the
    tags [prettyPrint] has a case for. *)
Inductive Node : Type :=
| Program (loc : Span) (body : list Node)
| ExpressionStatement (loc : Span) (expression : Node)
| VariableDeclaration (loc : Span) (kind : VarKind) (declarations : list (VariableDeclarator Node))
| OfVariableDeclarator (d : VariableDeclarator Node)
| Identifier (loc : Span) (name : string)
| IfStatement (loc : Span) (test consequent : Node) (alternate : option Node)
| OfBlockStatement (b : BlockStatement Node)
| FunctionDeclaration (loc : Span) (id : Node) (params : list Node) (body : BlockStatement Node)
| ClassDeclaration (loc : Span) (id : Node) (body : ClassBody Node)
| OfClassBody (b : ClassBody Node)
| ClassElement (loc : Span) (key : Node) (value : FunctionExpression Node)
    (kind : MethodKind) (static : bool)
| OfFunctionExpression (f : FunctionExpression Node)
| ReturnStatement (loc : Span) (argument : option Node)
| Literal (loc : Span) (raw : string)
| BinaryExpression (loc : Span) (operator : string) (left right : Node) (lineBreak : option Z)
| UnaryExpression (loc : Span) (operator : string) (argument : Node)
| CallExpression (loc : Span) (callee : Node) (arguments : list Node)
| MemberExpression (loc : Span) (object property : Node) (computed : bool)
| ArrayExpression (loc : Span) (elements : list (option Node)) (* [None] is an elision *)
| ObjectExpression (loc : Span) (properties : list Node)
| Property (loc : Span) (key value : Node)
| ArrowFunctionExpression (loc : Span) (params : list Node) (body : Node)
| ThisExpression (loc : Span)
| SpreadElement (loc : Span) (argument : Node)
| ConditionalExpression (loc : Span) (test consequent alternate : Node) (lineBreak : option Z)
| OfComment (c : Comment)
| Other (type : string) (unmapped : isMapped type = false) (loc : Span).

(** The value of [node.type]. *)
Definition nodeType (node : Node) : string :=
  match node with
  | Program _ _ => "Program"
  | ExpressionStatement _ _ => "ExpressionStatement"
  | VariableDeclaration _ _ _ => "VariableDeclaration"
  | OfVariableDeclarator _ => "VariableDeclarator"
  | Identifier _ _ => "Identifier"
  | IfStatement _ _ _ _ => "IfStatement"
  | OfBlockStatement _ => "BlockStatement"
  | FunctionDeclaration _ _ _ _ => "FunctionDeclaration"
  | ClassDeclaration _ _ _ => "ClassDeclaration"
  | OfClassBody _ => "ClassBody"
  | ClassElement _ _ _ _ _ => "MethodDefinition"
  | OfFunctionExpression _ => "FunctionExpression"
  | ReturnStatement _ _ => "ReturnStatement"
  | Literal _ _ => "Literal"
  | BinaryExpression _ _ _ _ _ => "BinaryExpression"
  | UnaryExpression _ _ _ => "UnaryExpression"
  | CallExpression _ _ _ => "CallExpression"
  | MemberExpression _ _ _ _ => "MemberExpression"
  | ArrayExpression _ _ => "ArrayExpression"
  | ObjectExpression _ _ => "ObjectExpression"
  | Property _ _ _ => "Property"
  | ArrowFunctionExpression _ _ _ => "ArrowFunctionExpression"
  | ThisExpression _ => "ThisExpression"
  | SpreadElement _ _ => "SpreadElement"
  | ConditionalExpression _ _ _ _ _ => "ConditionalExpression"
  | OfComment _ => "Comment"
  | Other type _ _ => type
  end.

Definition nodeLoc (node : Node) : Span :=
  match node with
  | Program loc _ | ExpressionStatement loc _ | VariableDeclaration loc _ _
  | Identifier loc _ | IfStatement loc _ _ _ | FunctionDeclaration loc _ _ _
  | ClassDeclaration loc _ _ | ClassElement loc _ _ _ _ | ReturnStatement loc _
  | Literal loc _ | BinaryExpression loc _ _ _ _ | UnaryExpression loc _ _
  | CallExpression loc _ _ | MemberExpression loc _ _ _ | ArrayExpression loc _
  | ObjectExpression loc _ | Property loc _ _ | ArrowFunctionExpression loc _ _
  | ThisExpression loc | SpreadElement loc _ | ConditionalExpression loc _ _ _ _
  | Other _ _ loc => loc
  | OfVariableDeclarator d => declarator_loc d
  | OfBlockStatement b => block_loc b
  | OfClassBody b => class_body_loc b
  | OfFunctionExpression f => function_loc f
  | OfComment c => comment_loc c
  end.

(** [elements.filter((element) => element !== null)] *)
Fixpoint nonNull (elements : list (option Node)) : list Node :=
  match elements with
  | [] => []
  | None :: rest => nonNull rest
  | Some element :: rest => element :: nonNull rest
  end.

(** ** pretty-printer.ts: options *)

Inductive CommentFormat : Type := Multiline | SingleLine | Html | JsDoc.

Record Options : Type :=
  { printWidth : option Z;
    tabWidth : option Z;
    useTabs : option bool;
    lineBreak : option bool;
    commentPlacement : option string;
    commentFormat : option CommentFormat;
    commentTypes : option Z;
    commentPlacementFlag : option Z }.

Definition defaultOptions : Options :=
  {| printWidth := Some 80;
     tabWidth := Some 2;
     useTabs := Some false;
     lineBreak := Some false;
     commentPlacement := Some "after";
     commentFormat := Some Multiline;
     commentTypes := Some CommentTypeFlags.All;
     commentPlacementFlag := Some CommentPlacementFlags.After |}.

(** ** pretty-printer.ts: the printers *)

Section Printer.

(** What the file uses and does not define: the ambient source text;
    [collectComments(sourceCode, start, end, { commentTypes: 'all' })] of
    ./comments, taken to return the spans of the comments it finds (its last
    argument is the same in its one call and is left out); and
    [printClassBody(node, options)], which [prettyPrint] calls on a node
    tagged ClassBody and which may throw as the other printers do. *)
Variable sourceCode : string.
Variable collectComments : string -> Z -> Z -> list Span.
Variable printClassBody : ClassBody Node -> Options -> Result jsval.

Variable options : Options.

(** [useTabs ? '\t' : ' '.repeat(tabWidth)], the first statement of every
    printer. *)
Definition indentation : Result string :=
  if truthy (useTabs options) then Ok tab else repeat " " (tabWidth options).

Definition after : bool :=
  hasFlag (commentPlacementFlag options) CommentPlacementFlags.After.

Definition commentText (loc : Span) : string :=
  substring sourceCode (start loc) (end_ loc).

Definition printComment (comment : Comment) : Result jsval :=
  indentation <- indentation ;;
  Ok (match commentFormat options with
      | Some Multiline =>
          Some (indentation ++ "/* " ++ commentText (comment_loc comment) ++ " */" ++ nl)
      | Some SingleLine =>
          Some (indentation ++ "// " ++ commentText (comment_loc comment) ++ nl)
      | Some Html =>
          Some (indentation ++ "<!-- " ++ commentText (comment_loc comment) ++ " -->" ++ nl)
      | Some JsDoc =>
          Some (indentation ++ "/** " ++ commentText (comment_loc comment) ++ " */" ++ nl)
      | None => None
      end).

(** The callback of [collectComments(...).map] in [printClassDeclaration]. *)
Definition formatCollected (comment : Span) : jsval :=
  match commentFormat options with
  | Some Multiline => Some ("/* " ++ commentText comment ++ " */")
  | Some SingleLine => Some ("// " ++ commentText comment)
  | Some Html => Some ("<!-- " ++ commentText comment ++ " -->")
  | Some JsDoc => Some ("/** " ++ commentText comment ++ " */")
  | None => None
  end.

Definition printIdentifier (name : string) : Result string :=
  indentation <- indentation ;;
  Ok (indentation ++ name).

Definition printLiteral (raw : string) : Result string :=
  indentation <- indentation ;;
  Ok (indentation ++ raw).

Definition printThisExpression : Result string :=
  indentation <- indentation ;;
  Ok (indentation ++ "this").

(** [if (lineBreak) { if (lineBreak & Before) ...; if (lineBreak & After) ... }] *)
Definition lineBreaks (lineBreak : option Z) : string :=
  if truthyNumber lineBreak then
    (if hasFlag lineBreak LineBreakFlags.Before then nl else "")
    ++ (if hasFlag lineBreak LineBreakFlags.After then nl else "")
  else "".

(** A printer's string as the value [prettyPrint] returns. *)
Definition returnText (r : Result string) : Result jsval :=
  text <- r ;; Ok (Some text).

Section Open.

(** The printers call [prettyPrint] and [printStatement] back. *)
Variable prettyPrint : Node -> Result jsval.
Variable printStatement : Node -> option bool -> Result string.

(** [list.map((x) => prettyPrint(x, options)).join(', ')] *)
Definition printList (l : list Node) : Result string :=
  texts <- mapM prettyPrint l ;;
  Ok (join ", " texts).

(** The loop over [body] of [printProgram] and [printBlockStatement]. *)
Definition printBody (body : list Node) (output : string) : Result string :=
  forEach
    (fun node index =>
       match node with
       | OfComment comment => text <- printComment comment ;; Ok (tpl text)
       | _ => printStatement node (Some (index =? Z.of_nat (List.length body) - 1))
       end)
    body 0 output.

Definition printProgram (body : list Node) : Result string :=
  indentation <- indentation ;;
  output <- printBody body "" ;;
  Ok (trim output).

Definition printExpressionStatement (expression : Node) : Result string :=
  indentation <- indentation ;;
  text <- prettyPrint expression ;;
  let output := indentation ++ tpl text in
  Ok (if after then output ++ ";" else output).

Definition printVariableDeclarator (declarator : VariableDeclarator Node) : Result string :=
  indentation <- indentation ;;
  text <- prettyPrint (id declarator) ;;
  let output := tpl text in
  output <-
    match init declarator with
    | Some init => text <- prettyPrint init ;; Ok (output ++ " = " ++ tpl text)
    | None => Ok output
    end ;;
  Ok (if after then output ++ ";" else output).

Definition printVariableDeclaration (kind : VarKind)
    (declarations : list (VariableDeclarator Node)) : Result string :=
  indentation <- indentation ;;
  texts <- mapM printVariableDeclarator declarations ;;
  let output := indentation ++ kindText kind ++ " " ++ joinStrings ", " texts in
  Ok (if after then output ++ ";" else output).

Definition printIfStatement (test consequent : Node) (alternate : option Node)
    : Result string :=
  indentation <- indentation ;;
  text <- prettyPrint test ;;
  let output := indentation ++ "if (" ++ tpl text ++ ")" in
  let output := if after then output ++ " " else output in
  consequentText <- printStatement consequent None ;;
  alternateText <-
    match alternate with
    | Some alternate => text <- printStatement alternate None ;; Ok (" else " ++ text)
    | None => Ok ""
    end ;;
  Ok (output ++ consequentText ++ alternateText).

Definition printBlockStatement (blockStatement : BlockStatement Node) : Result string :=
  indentation <- indentation ;;
  let output := indentation ++ "{" in
  let output := if truthy (lineBreak options) then output ++ nl else output in
  output <- printBody (block_body blockStatement) output ;;
  let output := if truthy (lineBreak options) then output ++ nl else output in
  Ok (output ++ indentation ++ "}").

Definition printFunctionDeclaration (id : Node) (params : list Node)
    (body : BlockStatement Node) : Result string :=
  indentation <- indentation ;;
  idText <- prettyPrint id ;;
  paramsText <- printList params ;;
  let output := indentation ++ "function " ++ tpl idText ++ "(" ++ paramsText ++ ")" in
  let output := if after then output ++ " " else output in
  bodyText <- printBlockStatement body ;;
  Ok (output ++ bodyText).

Definition printClassDeclaration (id : Node) (body : ClassBody Node) : Result string :=
  indentation <- indentation ;;
  bodyText <-
    mapM
      (fun element =>
         match element with
         | OfComment comment => printComment comment
         | _ =>
             let comment :=
               join nl
                 (map formatCollected
                    (collectComments sourceCode
                       (start (nodeLoc element)) (end_ (nodeLoc element)))) in
             text <- prettyPrint element ;;
             Ok (Some (indentation ++ comment ++ nl ++ indentation ++ tpl text))
         end)
      (class_body body) ;;
  idText <- prettyPrint id ;;
  Ok (indentation ++ "class " ++ tpl idText ++ " {" ++ join nl bodyText ++ nl
      ++ indentation ++ "}").

(** [key.type === NodeType.Identifier && key.name === name] *)
Definition isIdentifierNamed (name : string) (key : Node) : bool :=
  match key with
  | Identifier _ keyName => String.eqb keyName name
  | _ => false
  end.

Definition printClassElement (key : Node) (value : FunctionExpression Node)
    (static : bool) : Result string :=
  indentation <- indentation ;;
  if isIdentifierNamed "constructor" key then
    paramsText <- printList (params value) ;;
    bodyText <- printBlockStatement (function_body value) ;;
    Ok (indentation ++ "constructor(" ++ paramsText ++ ") " ++ bodyText)
  else if isIdentifierNamed "static" key then
    keyText <- prettyPrint key ;;
    paramsText <- printList (params value) ;;
    bodyText <- printBlockStatement (function_body value) ;;
    Ok (indentation ++ "static " ++ tpl keyText ++ "(" ++ paramsText ++ ") " ++ bodyText)
  else
    keyText <- prettyPrint key ;;
    paramsText <- printList (params value) ;;
    bodyText <- printBlockStatement (function_body value) ;;
    Ok (indentation ++ (if static then "static " else "") ++ tpl keyText
        ++ "(" ++ paramsText ++ ") " ++ bodyText).

Definition printFunctionExpression (functionExpression : FunctionExpression Node)
    : Result string :=
  indentation <- indentation ;;
  paramsText <- printList (params functionExpression) ;;
  bodyText <- printBlockStatement (function_body functionExpression) ;;
  Ok (indentation ++ "(" ++ paramsText ++ ") " ++ bodyText).

Definition printReturnStatement (argument : option Node) : Result string :=
  indentation <- indentation ;;
  let output := indentation ++ "return" in
  let output := if after then output ++ " " else output in
  argumentText <-
    match argument with
    | Some argument => text <- prettyPrint argument ;; Ok (" " ++ tpl text)
    | None => Ok ""
    end ;;
  Ok (output ++ argumentText ++ ";").

Definition printBinaryExpression (operator : string) (left right : Node)
    (lineBreak : option Z) : Result string :=
  indentation <- indentation ;;
  leftText <- prettyPrint left ;;
  let output := tpl leftText in
  let output := if after then output ++ " " else output in
  rightText <- prettyPrint right ;;
  let output := output ++ operator ++ " " ++ tpl rightText in
  Ok (output ++ lineBreaks lineBreak).

Definition printUnaryExpression (operator : string) (argument : Node) : Result string :=
  indentation <- indentation ;;
  let output := operator in
  let output := if after then output ++ " " else output in
  text <- prettyPrint argument ;;
  Ok (output ++ tpl text).

Definition printCallExpression (callee : Node) (arguments : list Node) : Result string :=
  indentation <- indentation ;;
  calleeText <- prettyPrint callee ;;
  let output := tpl calleeText in
  let output := if after then output ++ " " else output in
  argumentsText <- printList arguments ;;
  Ok (output ++ "(" ++ argumentsText ++ ")").

Definition printMemberExpression (object property : Node) (computed : bool)
    : Result string :=
  indentation <- indentation ;;
  objectText <- prettyPrint object ;;
  let output := tpl objectText in
  let output := if after then output ++ " " else output in
  propertyText <- prettyPrint property ;;
  Ok (output ++ (if computed then "[" else ".") ++ tpl propertyText
      ++ (if computed then "]" else "")).

(** [elements.filter((element) => element !== null)] followed by
    [.map((element) => prettyPrint(element, options))], as one loop over
    [elements] that skips the elisions (lemma [mapNonNull_filter] below
    shows it is the [mapM] over the filtered array). *)
Definition mapNonNull (elements : list (option Node)) : Result (list jsval) :=
  (fix go (l : list (option Node)) : Result (list jsval) :=
     match l with
     | [] => Ok []
     | None :: rest => go rest
     | Some element :: rest =>
         text <- prettyPrint element ;; texts <- go rest ;; Ok (text :: texts)
     end) elements.

Definition printArrayExpression (elements : list (option Node)) : Result string :=
  indentation <- indentation ;;
  texts <- mapNonNull elements ;;
  Ok ("[" ++ join ", " texts ++ "]").

Definition printObjectExpression (properties : list Node) : Result string :=
  indentation <- indentation ;;
  propertiesText <- printList properties ;;
  Ok ("{" ++ propertiesText).

Definition printProperty (key value : Node) : Result string :=
  indentation <- indentation ;;
  keyText <- prettyPrint key ;;
  let output := tpl keyText in
  let output := if after then output ++ " " else output in
  valueText <- prettyPrint value ;;
  Ok (output ++ ": " ++ tpl valueText).

Definition printArrowFunctionExpression (params : list Node) (body : Node)
    : Result string :=
  indentation <- indentation ;;
  paramsText <- printList params ;;
  let output := indentation ++ "(" ++ paramsText ++ ") => " in
  let output := if after then output ++ " " else output in
  bodyText <-
    match body with
    | OfBlockStatement block => printBlockStatement block
    | _ => text <- prettyPrint body ;; Ok (tpl text)
    end ;;
  Ok (output ++ bodyText).

Definition printSpreadElement (argument : Node) : Result string :=
  indentation <- indentation ;;
  text <- prettyPrint argument ;;
  Ok (indentation ++ "..." ++ tpl text).

Definition printConditionalExpression (test consequent alternate : Node)
    (lineBreak : option Z) : Result string :=
  indentation <- indentation ;;
  testText <- prettyPrint test ;;
  consequentText <- prettyPrint consequent ;;
  alternateText <- prettyPrint alternate ;;
  let output := tpl testText ++ " ? " ++ tpl consequentText ++ " : " ++ tpl alternateText in
  Ok (output ++ lineBreaks lineBreak).

(** The body of [prettyPrint]: the switch on [node.type]. *)
Definition prettyPrintBody (node : Node) : Result jsval :=
  match node with
  | Program _ body => returnText (printProgram body)
  | ExpressionStatement _ expression =>
      returnText (printExpressionStatement expression)
  | VariableDeclaration _ kind declarations =>
      returnText (printVariableDeclaration kind declarations)
  | OfVariableDeclarator declarator =>
      returnText (printVariableDeclarator declarator)
  | Identifier _ name => returnText (printIdentifier name)
  | IfStatement _ test consequent alternate =>
      returnText (printIfStatement test consequent alternate)
  | OfBlockStatement block => returnText (printBlockStatement block)
  | FunctionDeclaration _ id params body =>
      returnText (printFunctionDeclaration id params body)
  | ClassDeclaration _ id body => returnText (printClassDeclaration id body)
  | OfClassBody body => printClassBody body options
  | ClassElement _ key value _ static =>
      returnText (printClassElement key value static)
  | OfFunctionExpression functionExpression =>
      returnText (printFunctionExpression functionExpression)
  | ReturnStatement _ argument => returnText (printReturnStatement argument)
  | Literal _ raw => returnText (printLiteral raw)
  | BinaryExpression _ operator left_ right_ lineBreak =>
      returnText (printBinaryExpression operator left_ right_ lineBreak)
  | UnaryExpression _ operator argument =>
      returnText (printUnaryExpression operator argument)
  | CallExpression _ callee arguments =>
      returnText (printCallExpression callee arguments)
  | MemberExpression _ object property computed =>
      returnText (printMemberExpression object property computed)
  | ArrayExpression _ elements => returnText (printArrayExpression elements)
  | ObjectExpression _ properties =>
      returnText (printObjectExpression properties)
  | Property _ key value => returnText (printProperty key value)
  | ArrowFunctionExpression _ params body =>
      returnText (printArrowFunctionExpression params body)
  | ThisExpression _ => returnText printThisExpression
  | SpreadElement _ argument => returnText (printSpreadElement argument)
  | ConditionalExpression _ test consequent alternate lineBreak =>
      returnText
        (printConditionalExpression test consequent alternate lineBreak)
  | OfComment comment => printComment comment
  | Other type _ _ => Throw (UnsupportedNodeType type)
  end.

(** The body of [printStatement]: its switch on [statement.type] and the line
    feed after a statement that is not the last; a missing [isLast] argument is
    [None]. *)
Definition printStatementBody (statement : Node) (isLast : option bool) : Result string :=
  indentation <- indentation ;;
  output <-
    match statement with
    | ExpressionStatement _ expression => printExpressionStatement expression
    | VariableDeclaration _ kind declarations =>
        printVariableDeclaration kind declarations
    | IfStatement _ test consequent alternate =>
        printIfStatement test consequent alternate
    | OfBlockStatement block => printBlockStatement block
    | FunctionDeclaration _ id params body =>
        printFunctionDeclaration id params body
    | ClassDeclaration _ id body => printClassDeclaration id body
    | ReturnStatement _ argument => printReturnStatement argument
    | _ => Throw (UnsupportedStatementType (nodeType statement))
    end ;;
  Ok (if truthy isLast then output else output ++ nl).

End Open.

Fixpoint prettyPrint (node : Node) {struct node} : Result jsval :=
  prettyPrintBody prettyPrint printStatement node

with printStatement (statement : Node) (isLast : option bool) {struct statement}
    : Result string :=
  printStatementBody prettyPrint printStatement statement isLast.

End Printer.

(** * Vocabulary of the statements *)

(** ** Measuring the output *)

Fixpoint countChar (c : ascii) (s : string) : nat :=
  match s with
  | EmptyString => 0
  | String c' rest => (if Ascii.eqb c c' then 1 else 0) + countChar c rest
  end.

Definition sumCounts (c : ascii) (l : list string) : nat :=
  fold_right (fun s n => (countChar c s + n)%nat) 0%nat l.

Fixpoint endsWith (suffix s : string) : bool :=
  match s with
  | EmptyString => String.eqb suffix EmptyString
  | String _ rest => String.eqb suffix s || endsWith suffix rest
  end.

(** The physical lines of a text: the pieces between line feeds. *)
Fixpoint lines (s : string) : list string :=
  match s with
  | EmptyString => [EmptyString]
  | String c rest =>
      if Ascii.eqb c (ascii_of_nat 10) then EmptyString :: lines rest
      else match lines rest with
           | [] => [String c EmptyString]
           | line :: more => String c line :: more
           end
  end.

Definition fitsWidth (width : Z) (line : string) : bool :=
  Z.of_nat (String.length line) <=? width.

(** A line that holds one token has no space inside. *)
Definition singleToken (line : string) : bool :=
  (countChar " " (trim line) =? 0)%nat.

Definition respectsWidth (width : Z) (output : string) : bool :=
  forallb (fun line => fitsWidth width line || singleToken line) (lines output).

(** The delimiters of the four surface forms. *)
Definition opening (format : CommentFormat) : string :=
  match format with
  | Multiline => "/* "
  | SingleLine => "// "
  | Html => "<!-- "
  | JsDoc => "/** "
  end.

Definition closing (format : CommentFormat) : string :=
  match format with
  | Multiline => " */"
  | SingleLine => ""
  | Html => " -->"
  | JsDoc => " */"
  end.

(** A line that carries a leading star after its indentation. *)
Definition starred (line : string) : bool := String.prefix "*" (trimStart line).

(** An exception of the unsupported-node kind. *)
Definition isUnsupported {A : Type} (r : Result A) : bool :=
  match r with
  | Throw (UnsupportedNodeType _) | Throw (UnsupportedStatementType _) => true
  | _ => false
  end.

(** ** Trees and the nodes a printer is called on *)

Definition isComment (node : Node) : bool :=
  match node with
  | OfComment _ => true
  | _ => false
  end.

(** The statement tags [printStatement] has a case for. *)
Definition isStatement (node : Node) : bool :=
  match node with
  | ExpressionStatement _ _ | VariableDeclaration _ _ _ | IfStatement _ _ _ _
  | OfBlockStatement _ | FunctionDeclaration _ _ _ _ | ClassDeclaration _ _ _
  | ReturnStatement _ _ => true
  | _ => false
  end.

Definition optionb {A : Type} (p : A -> bool) (o : option A) : bool :=
  match o with
  | Some a => p a
  | None => true
  end.

(** [everywhere p node]: [p] holds of [node] and of every node below it. *)
Fixpoint everywhere (p : Node -> bool) (node : Node) {struct node} : bool :=
  p node &&
  match node with
  | Program _ body => forallb (everywhere p) body
  | ExpressionStatement _ expression => everywhere p expression
  | VariableDeclaration _ _ declarations =>
      forallb (fun d => everywhere p (id d) && optionb (everywhere p) (init d)) declarations
  | OfVariableDeclarator d => everywhere p (id d) && optionb (everywhere p) (init d)
  | Identifier _ _ => true
  | IfStatement _ test consequent alternate =>
      everywhere p test && everywhere p consequent && optionb (everywhere p) alternate
  | OfBlockStatement block => forallb (everywhere p) (block_body block)
  | FunctionDeclaration _ id params body =>
      everywhere p id && forallb (everywhere p) params
      && forallb (everywhere p) (block_body body)
  | ClassDeclaration _ id body => everywhere p id && forallb (everywhere p) (class_body body)
  | OfClassBody body => forallb (everywhere p) (class_body body)
  | ClassElement _ key value _ _ =>
      everywhere p key && forallb (everywhere p) (params value)
      && forallb (everywhere p) (block_body (function_body value))
  | OfFunctionExpression f =>
      forallb (everywhere p) (params f) && forallb (everywhere p) (block_body (function_body f))
  | ReturnStatement _ argument => optionb (everywhere p) argument
  | Literal _ _ => true
  | BinaryExpression _ _ left_ right_ _ => everywhere p left_ && everywhere p right_
  | UnaryExpression _ _ argument => everywhere p argument
  | CallExpression _ callee arguments => everywhere p callee && forallb (everywhere p) arguments
  | MemberExpression _ object property _ => everywhere p object && everywhere p property
  | ArrayExpression _ elements => forallb (optionb (everywhere p)) elements
  | ObjectExpression _ properties => forallb (everywhere p) properties
  | Property _ key value => everywhere p key && everywhere p value
  | ArrowFunctionExpression _ params body => forallb (everywhere p) params && everywhere p body
  | ThisExpression _ => true
  | SpreadElement _ argument => everywhere p argument
  | ConditionalExpression _ test consequent alternate _ =>
      everywhere p test && everywhere p consequent && everywhere p alternate
  | OfComment _ => true
  | Other _ _ _ => true
  end.

(** [node] is printed by a printer of the file, not by [printClassBody]. *)
Definition ownPrinter (node : Node) : bool :=
  match node with
  | OfClassBody _ => false
  | _ => true
  end.

(** The two source texts give [node], if it is a comment, the same text; and
    [node] neither makes the printer look for comments in the source text (as
    a class declaration with an element other than a comment does) nor goes to
    [printClassBody]. *)
Definition sameCommentText (sourceCode1 sourceCode2 : string) (node : Node) : bool :=
  match node with
  | OfComment comment =>
      String.eqb (commentText sourceCode1 (comment_loc comment))
        (commentText sourceCode2 (comment_loc comment))
  | ClassDeclaration _ _ body => forallb isComment (class_body body)
  | OfClassBody _ => false
  | _ => true
  end.

(** What may stand in the [body] of a program or of a block. *)
Definition isBodyItem (node : Node) : bool := isComment node || isStatement node.

Section SupportedIf.

Variable classBody : bool.

(** Every node of the tree is of a variant that the switch it reaches has a
    case for: [prettyPrint]'s switch for a node printed through
    [prettyPrint], [printStatement]'s for a statement of a body or a branch of
    an [if].  [classBody] tells whether a node tagged ClassBody counts: its
    case calls [printClassBody], which is no part of the file. *)
Fixpoint supportedIf (node : Node) {struct node} : bool :=
  match node with
  | Program _ body => forallb (fun n => isBodyItem n && supportedIf n) body
  | ExpressionStatement _ expression => supportedIf expression
  | VariableDeclaration _ _ declarations =>
      forallb (fun d => supportedIf (id d) && optionb supportedIf (init d)) declarations
  | OfVariableDeclarator d => supportedIf (id d) && optionb supportedIf (init d)
  | Identifier _ _ => true
  | IfStatement _ test consequent alternate =>
      supportedIf test && (isStatement consequent && supportedIf consequent)
      && optionb (fun n => isStatement n && supportedIf n) alternate
  | OfBlockStatement block =>
      forallb (fun n => isBodyItem n && supportedIf n) (block_body block)
  | FunctionDeclaration _ id params body =>
      supportedIf id && forallb supportedIf params
      && forallb (fun n => isBodyItem n && supportedIf n) (block_body body)
  | ClassDeclaration _ id body => supportedIf id && forallb supportedIf (class_body body)
  | OfClassBody _ => classBody
  | ClassElement _ key value _ _ =>
      supportedIf key && forallb supportedIf (params value)
      && forallb (fun n => isBodyItem n && supportedIf n) (block_body (function_body value))
  | OfFunctionExpression f =>
      forallb supportedIf (params f)
      && forallb (fun n => isBodyItem n && supportedIf n) (block_body (function_body f))
  | ReturnStatement _ argument => optionb supportedIf argument
  | Literal _ _ => true
  | BinaryExpression _ _ left_ right_ _ => supportedIf left_ && supportedIf right_
  | UnaryExpression _ _ argument => supportedIf argument
  | CallExpression _ callee arguments => supportedIf callee && forallb supportedIf arguments
  | MemberExpression _ object property _ => supportedIf object && supportedIf property
  | ArrayExpression _ elements => forallb (optionb supportedIf) elements
  | ObjectExpression _ properties => forallb supportedIf properties
  | Property _ key value => supportedIf key && supportedIf value
  | ArrowFunctionExpression _ params body => forallb supportedIf params && supportedIf body
  | ThisExpression _ => true
  | SpreadElement _ argument => supportedIf argument
  | ConditionalExpression _ test consequent alternate _ =>
      supportedIf test && supportedIf consequent && supportedIf alternate
  | OfComment _ => true
  | Other _ _ _ => false
  end.

End SupportedIf.

Definition supported (node : Node) : bool := supportedIf false node.

(** ** Options *)

Definition sameLayout (options1 options2 : Options) : Prop :=
  indentation options1 = indentation options2
  /\ after options1 = after options2
  /\ truthy (lineBreak options1) = truthy (lineBreak options2)
  /\ commentFormat options1 = commentFormat options2.

Definition withPrintWidth (width : option Z) (options : Options) : Options :=
  {| printWidth := width;
     tabWidth := tabWidth options;
     useTabs := useTabs options;
     lineBreak := lineBreak options;
     commentPlacement := commentPlacement options;
     commentFormat := commentFormat options;
     commentTypes := commentTypes options;
     commentPlacementFlag := commentPlacementFlag options |}.

Definition withTabWidth (width : option Z) (options : Options) : Options :=
  {| printWidth := printWidth options;
     tabWidth := width;
     useTabs := useTabs options;
     lineBreak := lineBreak options;
     commentPlacement := commentPlacement options;
     commentFormat := commentFormat options;
     commentTypes := commentTypes options;
     commentPlacementFlag := commentPlacementFlag options |}.

Definition withCommentTypes (types : option Z) (options : Options) : Options :=
  {| printWidth := printWidth options;
     tabWidth := tabWidth options;
     useTabs := useTabs options;
     lineBreak := lineBreak options;
     commentPlacement := commentPlacement options;
     commentFormat := commentFormat options;
     commentTypes := types;
     commentPlacementFlag := commentPlacementFlag options |}.

Definition withCommentFormat (format : option CommentFormat) (options : Options) : Options :=
  {| printWidth := printWidth options;
     tabWidth := tabWidth options;
     useTabs := useTabs options;
     lineBreak := lineBreak options;
     commentPlacement := commentPlacement options;
     commentFormat := format;
     commentTypes := commentTypes options;
     commentPlacementFlag := commentPlacementFlag options |}.

Definition withCommentPlacement (placement : option string) (flag : option Z)
    (options : Options) : Options :=
  {| printWidth := printWidth options;
     tabWidth := tabWidth options;
     useTabs := useTabs options;
     lineBreak := lineBreak options;
     commentPlacement := placement;
     commentFormat := commentFormat options;
     commentTypes := commentTypes options;
     commentPlacementFlag := flag |}.

(** ** Runs of the printer *)

(** Two runs, each with its ambient values and its options, return the same
    result on [node], through [prettyPrint] and through [printStatement]. *)
Definition agree
    (sourceCode1 sourceCode2 : string)
    (collectComments1 collectComments2 : string -> Z -> Z -> list Span)
    (printClassBody1 printClassBody2 : ClassBody Node -> Options -> Result jsval)
    (options1 options2 : Options) (node : Node) : Prop :=
  prettyPrint sourceCode1 collectComments1 printClassBody1 options1 node
  = prettyPrint sourceCode2 collectComments2 printClassBody2 options2 node
  /\ forall isLast,
       printStatement sourceCode1 collectComments1 printClassBody1 options1 node isLast
       = printStatement sourceCode2 collectComments2 printClassBody2 options2 node isLast.

(** A run throws no unsupported-node error on [node]: not through
    [prettyPrint], and not through [printStatement] if [node] is a statement. *)
Definition safe
    (sourceCode : string) (collectComments : string -> Z -> Z -> list Span)
    (printClassBody : ClassBody Node -> Options -> Result jsval)
    (options : Options) (node : Node) : Prop :=
  isUnsupported (prettyPrint sourceCode collectComments printClassBody options node) = false
  /\ (isStatement node = true ->
      forall isLast,
        isUnsupported
          (printStatement sourceCode collectComments printClassBody options node isLast)
        = false).

(** ** Inputs of the examples *)

Module Example.

Definition at_ (start end_ : Z) : Span := {| start := start; end_ := end_ |}.

(** A [collectComments] that finds no comment, and a [printClassBody] that
    returns [undefined]. *)
Definition noComments : string -> Z -> Z -> list Span := fun _ _ _ => [].
Definition noClassBody : ClassBody Node -> Options -> Result jsval := fun _ _ => Ok None.

Definition literal (raw : string) : Node := Literal (at_ 0 0) raw.

(** [const x = 10;], at [offset] of the source text. *)
Definition constXAt (offset : Z) : Node :=
  VariableDeclaration (at_ offset (offset + 13)) const
    [ {| declarator_loc := at_ (offset + 6) (offset + 12);
         id := Identifier (at_ (offset + 6) (offset + 7)) "x";
         init := Some (Literal (at_ (offset + 10) (offset + 12)) "10") |} ].

Definition constX : Node := constXAt 0.

End Example.

Module WidthExample.

(** [1111 + 2222 + 3333 + 4444;] *)
Definition chain : Node :=
  BinaryExpression (Example.at_ 0 25) "+"
    (BinaryExpression (Example.at_ 0 18) "+"
       (BinaryExpression (Example.at_ 0 11) "+"
          (Literal (Example.at_ 0 4) "1111") (Literal (Example.at_ 7 11) "2222") None)
       (Literal (Example.at_ 14 18) "3333") None)
    (Literal (Example.at_ 21 25) "4444") None.

Definition sourceCode : string := "1111 + 2222 + 3333 + 4444;".

Definition program : Node :=
  Program (Example.at_ 0 26) [ExpressionStatement (Example.at_ 0 26) chain].

(** What the printer returns for [program]. *)
Definition output : string := "1111 +   2222 +   3333 +   4444;".

End WidthExample.

Module CommentExample.

(** The comment [note], at offsets 3 to 7 of [/* note */ const x = 10;]. *)
Definition sourceCode : string := "/* note */ const x = 10;".

Definition note : Comment :=
  {| comment_loc := Example.at_ 3 7; comment_value := "note"; comment_flag := None |}.

Definition program : Node :=
  Program (Example.at_ 0 24) [OfComment note; Example.constXAt 11].

(** The comment [keep], at offsets 17 to 21 of [const x = 10; // keep]. *)
Definition keepSource : string := "const x = 10; // keep".

Definition keep : Comment :=
  {| comment_loc := Example.at_ 17 21;
     comment_value := "keep";
     comment_flag := Some "after" |}.

Definition keepProgram : Node := Program (Example.at_ 0 21) [Example.constX; OfComment keep].

(** The same comment with its marker, at offsets 14 to 21. *)
Definition keepWithMarker : Comment :=
  {| comment_loc := Example.at_ 14 21;
     comment_value := "// keep";
     comment_flag := Some "after" |}.

Definition keepOptions : Options :=
  {| printWidth := Some 80;
     tabWidth := Some 2;
     useTabs := Some false;
     lineBreak := Some false;
     commentPlacement := Some "after";
     commentFormat := Some SingleLine;
     commentTypes := Some CommentTypeFlags.All;
     commentPlacementFlag := Some CommentPlacementFlags.After |}.

(** A comment of two lines. *)
Definition twoLines : string := "first" ++ nl ++ "second".

Definition twoLineComment : Comment :=
  {| comment_loc := Example.at_ 0 12; comment_value := twoLines; comment_flag := None |}.

End CommentExample.


(** ** Outcomes of a run, ends of a text, flags and partial options *)

(** The call returns a value. *)
Definition isOk {A : Type} (r : Result A) : bool :=
  match r with
  | Ok _ => true
  | Throw _ => false
  end.

(** The text starts with white space; the text ends with white space. *)
Definition leadingWhiteSpace (s : string) : bool :=
  match s with
  | String c _ => isWhiteSpace c
  | EmptyString => false
  end.

Fixpoint trailingWhiteSpace (s : string) : bool :=
  match s with
  | EmptyString => false
  | String c EmptyString => isWhiteSpace c
  | String _ rest => trailingWhiteSpace rest
  end.

(** How many of the flags [LineBreakFlags.Before] (bit 0) and
    [LineBreakFlags.After] (bit 1) a [lineBreak] value holds. *)
Definition lineFeeds (lineBreak : Z) : nat :=
  ((if Z.testbit lineBreak 0 then 1 else 0) + (if Z.testbit lineBreak 1 then 1 else 0))%nat.

(** [b] decides the outcome of a call: the call returns when [b] holds, and
    throws an unsupported-node error when it does not. *)
Definition decides {A : Type} (b : bool) (r : Result A) : Prop :=
  isOk r = b /\ isUnsupported r = negb b.

(** The field, or [value] where the field is missing. *)
Definition orElse {A : Type} (field : option A) (value : A) : option A :=
  match field with
  | Some a => Some a
  | None => Some value
  end.

(** The options object in which each field the printers test or compute with
    ([tabWidth], [useTabs], [lineBreak], [commentPlacementFlag]) is given, if
    it is missing, the value a missing field counts as: 0 or [false]. *)
Definition withFalsyDefaults (options : Options) : Options :=
  {| printWidth := printWidth options;
     tabWidth := orElse (tabWidth options) 0;
     useTabs := orElse (useTabs options) false;
     lineBreak := orElse (lineBreak options) false;
     commentPlacement := commentPlacement options;
     commentFormat := commentFormat options;
     commentTypes := commentTypes options;
     commentPlacementFlag := orElse (commentPlacementFlag options) 0 |}.

(** The options object [{}]. *)
Definition emptyOptions : Options :=
  {| printWidth := None;
     tabWidth := None;
     useTabs := None;
     lineBreak := None;
     commentPlacement := None;
     commentFormat := None;
     commentTypes := None;
     commentPlacementFlag := None |}.

(** ** Texts of one line *)

Definition lineFeed : ascii := ascii_of_nat 10.

(** The text holds no line feed. *)
Definition noLineFeed (s : string) : bool := (countChar lineFeed s =? 0)%nat.

(** The [lineBreak] field of an expression holds neither of the flags that
    [printBinaryExpression] and [printConditionalExpression] test. *)
Definition noLineBreak (lineBreak : option Z) : bool :=
  negb (hasFlag lineBreak LineBreakFlags.Before)
  && negb (hasFlag lineBreak LineBreakFlags.After).

(** A tree of expressions and of the statements printed without a body
    (expression statements, declarations, return statements), of which no
    name, literal or operator holds a line feed and no expression asks for a
    line break. *)
Fixpoint oneLine (node : Node) {struct node} : bool :=
  match node with
  | ExpressionStatement _ expression => oneLine expression
  | VariableDeclaration _ _ declarations =>
      forallb (fun d => oneLine (id d) && optionb oneLine (init d)) declarations
  | OfVariableDeclarator d => oneLine (id d) && optionb oneLine (init d)
  | Identifier _ name => noLineFeed name
  | ReturnStatement _ argument => optionb oneLine argument
  | Literal _ raw => noLineFeed raw
  | BinaryExpression _ operator left_ right_ lineBreak =>
      noLineFeed operator && oneLine left_ && oneLine right_ && noLineBreak lineBreak
  | UnaryExpression _ operator argument => noLineFeed operator && oneLine argument
  | CallExpression _ callee arguments => oneLine callee && forallb oneLine arguments
  | MemberExpression _ object property _ => oneLine object && oneLine property
  | ArrayExpression _ elements => forallb (optionb oneLine) elements
  | ObjectExpression _ properties => forallb oneLine properties
  | Property _ key value => oneLine key && oneLine value
  | ArrowFunctionExpression _ params body => forallb oneLine params && oneLine body
  | ThisExpression _ => true
  | SpreadElement _ argument => oneLine argument
  | ConditionalExpression _ test consequent alternate lineBreak =>
      oneLine test && oneLine consequent && oneLine alternate && noLineBreak lineBreak
  | _ => false
  end.

(** [Q] holds of what the call returns, if it returns. *)
Definition returned {A : Type} (Q : A -> Prop) (r : Result A) : Prop :=
  forall a, r = Ok a -> Q a.

(** * Lemmas and theorems *)

(** ** Basic facts about the monad, strings and loops *)

Lemma bind_Ok {A B : Type} (r : Result A) (k : A -> Result B) (b : B) :
  bind r k = Ok b <-> exists a, r = Ok a /\ k a = Ok b.
Proof.
  split.
  - destruct r as [a|e]; simpl; intros H; [exists a; auto | discriminate].
  - intros (a & -> & H). exact H.
Qed.

Lemma append_nil_r (s : string) : s ++ "" = s.
Proof. induction s as [|c s IH]; simpl; [reflexivity | now rewrite IH]. Qed.

Lemma append_assoc (s t u : string) : (s ++ t) ++ u = s ++ t ++ u.
Proof. induction s as [|c s IH]; simpl; [reflexivity | now rewrite IH]. Qed.

Lemma length_append (s t : string) :
  String.length (s ++ t) = (String.length s + String.length t)%nat.
Proof. induction s as [|c s IH]; simpl; [reflexivity | now rewrite IH]. Qed.

Lemma append_closing_brace (s : string) : s <> s ++ "}".
Proof.
  intros H. apply (f_equal String.length) in H. rewrite length_append in H.
  simpl in H. lia.
Qed.

Lemma countChar_append (c : ascii) (s t : string) :
  countChar c (s ++ t) = (countChar c s + countChar c t)%nat.
Proof. induction s as [|c' s IH]; simpl; [reflexivity | rewrite IH; lia]. Qed.

Lemma countChar_joinStrings (c : ascii) (separator : string) (l : list string) :
  countChar c (joinStrings separator l)
  = (sumCounts c l + (List.length l - 1) * countChar c separator)%nat.
Proof.
  induction l as [|x [|y rest] IH].
  - reflexivity.
  - simpl. lia.
  - change (joinStrings separator (x :: y :: rest))
      with (x ++ separator ++ joinStrings separator (y :: rest)).
    rewrite !countChar_append, IH. simpl. lia.
Qed.

Lemma endsWith_append (suffix s : string) : endsWith suffix (s ++ suffix) = true.
Proof.
  induction s as [|c s IH]; simpl.
  - destruct suffix as [|c' suffix']; simpl; [reflexivity|].
    now rewrite Ascii.eqb_refl, String.eqb_refl.
  - rewrite IH. apply orb_true_r.
Qed.

Lemma mapM_Ok_length {A B : Type} (f : A -> Result B) (l : list A) (l' : list B) :
  mapM f l = Ok l' -> List.length l' = List.length l.
Proof.
  revert l'. induction l as [|x l IH]; simpl; intros l' H.
  - now inversion H.
  - apply bind_Ok in H as (y & _ & H). apply bind_Ok in H as (ys & Hys & H).
    inversion H; subst. simpl. f_equal. now apply IH.
Qed.

Lemma mapM_Forall2 {A B : Type} (f : A -> Result B) (l : list A) (l' : list B) :
  mapM f l = Ok l' <-> Forall2 (fun x y => f x = Ok y) l l'.
Proof.
  split.
  - revert l'. induction l as [|x l IH]; simpl; intros l' H.
    + inversion H. constructor.
    + apply bind_Ok in H as (y & Hy & H). apply bind_Ok in H as (ys & Hys & H).
      inversion H; subst. constructor; auto.
  - induction 1 as [|x y l l' Hxy _ IH]; simpl; [reflexivity|].
    now rewrite Hxy, IH.
Qed.

Lemma mapNonNull_filter (prettyPrint : Node -> Result jsval) (elements : list (option Node)) :
  mapNonNull prettyPrint elements = mapM prettyPrint (nonNull elements).
Proof.
  induction elements as [|[element|] rest IH]; simpl.
  - reflexivity.
  - destruct (prettyPrint element) as [text|e]; simpl; [|reflexivity].
    fold (mapNonNull prettyPrint rest). now rewrite IH.
  - exact IH.
Qed.

(** ** Object and array literals *)

Section Literals.

Variable sourceCode : string.
Variable collectComments : string -> Z -> Z -> list Span.
Variable printClassBody : ClassBody Node -> Options -> Result jsval.
Variable options : Options.

Local Abbreviation render :=
  (prettyPrint sourceCode collectComments printClassBody options).

Lemma prettyPrint_ObjectExpression (loc : Span) (properties : list Node) :
  render (ObjectExpression loc properties)
  = (indentation <- indentation options ;;
     texts <- mapM render properties ;;
     Ok (Some ("{" ++ join ", " texts))).
Proof.
  unfold render. simpl. unfold returnText, printObjectExpression, printList.
  destruct (indentation options) as [ind|e]; simpl; [|reflexivity].
  destruct (mapM _ properties) as [texts|e]; reflexivity.
Qed.

Lemma prettyPrint_ArrayExpression (loc : Span) (elements : list (option Node)) :
  render (ArrayExpression loc elements)
  = (indentation <- indentation options ;;
     texts <- mapM render (nonNull elements) ;;
     Ok (Some ("[" ++ join ", " texts ++ "]"))).
Proof.
  unfold render. simpl. unfold returnText, printArrayExpression.
  rewrite mapNonNull_filter.
  destruct (indentation options) as [ind|e]; simpl; [|reflexivity].
  destruct (mapM _ (nonNull elements)) as [texts|e]; reflexivity.
Qed.

End Literals.

(** C8.  An object literal is printed as an opening brace followed by its
    properties, each printed by [prettyPrint] and joined by a comma and a
    space, and nothing after them, so the output is not the one that closes
    the brace: the printer adds one opening brace to the braces of the
    properties and no closing one.  An empty object literal is printed as the
    opening brace alone. *)
Theorem object_expression_is_left_open
    (sourceCode : string) (collectComments : string -> Z -> Z -> list Span)
    (printClassBody : ClassBody Node -> Options -> Result jsval)
    (options : Options) (loc : Span) (properties : list Node) :
  let render := prettyPrint sourceCode collectComments printClassBody options in
  render (ObjectExpression loc properties)
  = (indentation <- indentation options ;;
     texts <- mapM render properties ;;
     Ok (Some ("{" ++ join ", " texts)))
  /\ (forall out, render (ObjectExpression loc properties) = Ok out ->
      exists texts,
        Forall2 (fun property text => render property = Ok text) properties texts
        /\ out = Some ("{" ++ join ", " texts)
        /\ tpl out <> "{" ++ join ", " texts ++ "}"
        /\ countChar "{" (tpl out) = S (countChar "{" (join ", " texts))
        /\ countChar "}" (tpl out) = countChar "}" (join ", " texts))
  /\ prettyPrint sourceCode collectComments printClassBody defaultOptions
       (ObjectExpression loc []) = Ok (Some "{")
  /\ prettyPrint sourceCode collectComments printClassBody defaultOptions
       (ObjectExpression loc
          [Property loc (Example.literal "'a'") (Example.literal "1");
           Property loc (Example.literal "'b'") (Example.literal "2")])
     = Ok (Some "{  'a' :   1,   'b' :   2").
Proof.
  intros render. split; [apply prettyPrint_ObjectExpression|].
  split; [|split; reflexivity].
  intros out H. unfold render in H. rewrite prettyPrint_ObjectExpression in H.
  apply bind_Ok in H as (ind & _ & H). apply bind_Ok in H as (texts & Htexts & H).
  inversion H; subst out. exists texts.
  split; [now apply mapM_Forall2|]. split; [reflexivity|].
  split; [|split; reflexivity].
  simpl. intros Heq. injection Heq as Heq. now apply append_closing_brace in Heq.
Qed.

(** C10, as amended.  An array literal is printed from its elements with the
    elisions removed: the output is that of the array of the remaining
    elements, and two arrays with the same remaining elements are printed
    alike (so are [[1,,2]] and [[1, 2]]).  When an element remains, the commas
    of the output, those inside the texts of the elements apart, are one fewer
    than the remaining elements; when none remains the output is [[]]. *)
Theorem array_expression_drops_elisions
    (sourceCode : string) (collectComments : string -> Z -> Z -> list Span)
    (printClassBody : ClassBody Node -> Options -> Result jsval)
    (options : Options) (loc : Span) (elements : list (option Node)) :
  let render := prettyPrint sourceCode collectComments printClassBody options in
  render (ArrayExpression loc elements)
  = render (ArrayExpression loc (map Some (nonNull elements)))
  /\ (forall loc' elements',
        nonNull elements' = nonNull elements ->
        render (ArrayExpression loc' elements') = render (ArrayExpression loc elements))
  /\ (forall out, render (ArrayExpression loc elements) = Ok out ->
      exists texts,
        Forall2 (fun element text => render element = Ok text) (nonNull elements) texts
        /\ out = Some ("[" ++ join ", " texts ++ "]")
        /\ (nonNull elements = [] -> out = Some "[]")
        /\ (nonNull elements <> [] ->
            Z.of_nat (countChar "," (tpl out))
            = Z.of_nat (sumCounts "," (map joinElement texts))
              + (Z.of_nat (List.length (nonNull elements)) - 1)))
  /\ prettyPrint sourceCode collectComments printClassBody defaultOptions
       (ArrayExpression loc [Some (Example.literal "1"); None; Some (Example.literal "2")])
     = Ok (Some "[  1,   2]")
  /\ prettyPrint sourceCode collectComments printClassBody defaultOptions
       (ArrayExpression loc [Some (Example.literal "1"); Some (Example.literal "2")])
     = Ok (Some "[  1,   2]").
Proof.
  intros render.
  assert (Hsame : forall loc' elements',
             nonNull elements' = nonNull elements ->
             render (ArrayExpression loc' elements') = render (ArrayExpression loc elements)).
  { intros loc' elements' H. unfold render.
    now rewrite !prettyPrint_ArrayExpression, H. }
  split.
  - symmetry. apply Hsame. clear. induction elements as [|[e|] rest IH]; simpl; congruence.
  - split; [exact Hsame|]. split; [|split; reflexivity].
    intros out H. unfold render in H. rewrite prettyPrint_ArrayExpression in H.
    apply bind_Ok in H as (ind & _ & H). apply bind_Ok in H as (texts & Htexts & H).
    inversion H; subst out. exists texts.
    split; [now apply mapM_Forall2|]. split; [reflexivity|].
    pose proof (mapM_Ok_length _ _ _ Htexts) as Hlength. split.
    + intros Hnil. rewrite Hnil in Hlength. destruct texts; [reflexivity | discriminate].
    + intros Hcons. simpl.
      rewrite countChar_append. unfold join. rewrite countChar_joinStrings.
      rewrite length_map, Hlength. simpl.
      destruct (nonNull elements) as [|e rest]; [contradiction|]. simpl List.length. lia.
Qed.

(** An array with no element, and one that is a single elision, are printed
    without a comma, which is not one fewer than their remaining elements. *)
Lemma empty_array_has_no_comma :
  prettyPrint "[]" Example.noComments Example.noClassBody defaultOptions
    (ArrayExpression (Example.at_ 0 2) []) = Ok (Some "[]")
  /\ prettyPrint "[,]" Example.noComments Example.noClassBody defaultOptions
       (ArrayExpression (Example.at_ 0 3) [None]) = Ok (Some "[]")
  /\ List.length (nonNull [None]) = 0%nat
  /\ Z.of_nat (countChar "," "[]") <> Z.of_nat (List.length (nonNull [None])) - 1.
Proof. repeat split; try reflexivity. discriminate. Qed.

(** ** Variable declarations *)

#[local] Arguments String.append : simpl never.

Lemma joinStrings_cons (separator x y : string) (l : list string) :
  joinStrings separator (x :: y :: l) = x ++ separator ++ joinStrings separator (y :: l).
Proof. reflexivity. Qed.

Lemma joinStrings_last (separator : string) (x : string) (l : list string) :
  exists front, joinStrings separator (x :: l) = front ++ last (x :: l) "".
Proof.
  revert x. induction l as [|y l IH]; intros x.
  - exists "". reflexivity.
  - destruct (IH y) as (front & Hfront).
    exists (x ++ separator ++ front).
    change (joinStrings separator (x :: y :: l))
      with (x ++ separator ++ joinStrings separator (y :: l)).
    rewrite Hfront, !append_assoc. reflexivity.
Qed.

Lemma printVariableDeclarator_after
    (options : Options) (prettyPrint : Node -> Result jsval)
    (declarator : VariableDeclarator Node) (text : string) :
  after options = true ->
  printVariableDeclarator options prettyPrint declarator = Ok text ->
  exists text', text = text' ++ ";".
Proof.
  intros Hafter H. unfold printVariableDeclarator in H. rewrite Hafter in H.
  apply bind_Ok in H as (ind & _ & H). apply bind_Ok in H as (idText & _ & H).
  apply bind_Ok in H as (output & _ & H). inversion H. now exists output.
Qed.

Lemma Forall2_semicolons
    (options : Options) (prettyPrint : Node -> Result jsval)
    (declarations : list (VariableDeclarator Node)) (texts : list string) :
  after options = true ->
  Forall2 (fun d text => printVariableDeclarator options prettyPrint d = Ok text)
    declarations texts ->
  exists texts',
    texts = map (fun text => text ++ ";") texts'
    /\ Forall2 (fun d text => printVariableDeclarator options prettyPrint d = Ok (text ++ ";"))
         declarations texts'.
Proof.
  intros Hafter. induction 1 as [|d text ds texts Hd _ (texts' & -> & IH)].
  - exists []. split; [reflexivity | constructor].
  - destruct (printVariableDeclarator_after _ _ _ _ Hafter Hd) as (text' & ->).
    exists (text' :: texts'). split; [reflexivity | now constructor].
Qed.

(** C9, as amended.  When the placement flag includes After, a variable
    declaration with at least one declarator is printed as the indentation,
    the kind, a space, the declarators joined by a comma and a space, and a
    semicolon; each declarator's text ends with a semicolon of its own, so the
    output ends with two semicolons and a declarator that is not the last is
    followed by a semicolon, a comma and a space. *)
Theorem variable_declaration_ends_with_two_semicolons
    (sourceCode : string) (collectComments : string -> Z -> Z -> list Span)
    (printClassBody : ClassBody Node -> Options -> Result jsval)
    (options : Options) (loc : Span) (kind : VarKind)
    (declarator : VariableDeclarator Node) (declarations : list (VariableDeclarator Node))
    (out : jsval)
    (Hafter : after options = true)
    (Hout : prettyPrint sourceCode collectComments printClassBody options
              (VariableDeclaration loc kind (declarator :: declarations)) = Ok out) :
  let render := prettyPrint sourceCode collectComments printClassBody options in
  exists ind texts,
    indentation options = Ok ind
    /\ Forall2 (fun d text => printVariableDeclarator options render d = Ok (text ++ ";"))
         (declarator :: declarations) texts
    /\ out = Some (ind ++ kindText kind ++ " "
                   ++ joinStrings ", " (map (fun text => text ++ ";") texts) ++ ";")
    /\ endsWith ";;" (tpl out) = true
    /\ (forall first second rest,
          texts = first :: second :: rest ->
          exists tail, tpl out = ind ++ kindText kind ++ " " ++ first ++ ";, " ++ tail).
Proof.
  intros render. simpl in Hout. unfold returnText, printVariableDeclaration in Hout.
  rewrite Hafter in Hout.
  apply bind_Ok in Hout as (text & Hout & Hsome).
  apply bind_Ok in Hout as (ind & Hind & Hout).
  apply bind_Ok in Hout as (texts & Htexts & Hout).
  inversion Hsome; subst out. inversion Hout; subst text. clear Hsome Hout.
  apply mapM_Forall2 in Htexts.
  destruct (Forall2_semicolons _ _ _ _ Hafter Htexts) as (texts' & -> & Htexts').
  exists ind, texts'. split; [exact Hind|]. split; [exact Htexts'|].
  split; [now rewrite !append_assoc|]. split.
  - cbv beta iota delta [tpl]. inversion Htexts' as [|d text ds ts _ _ E1 E2]; subst. simpl map.
    destruct (joinStrings_last ", " (text ++ ";") (map (fun t => t ++ ";") ts))
      as (front & ->).
    assert (Hlast : exists body, last ((text ++ ";")
                      :: map (fun t => t ++ ";") ts) "" = body ++ ";").
    { clear. revert text. induction ts as [|t ts IH]; intros text.
      - now exists text.
      - destruct (IH t) as (body & Hbody). exists body. exact Hbody. }
    destruct Hlast as (body & ->).
    replace ((ind ++ kindText kind ++ " " ++ front ++ body ++ ";") ++ ";")
      with ((ind ++ kindText kind ++ " " ++ front ++ body) ++ ";;")
      by (rewrite !append_assoc; reflexivity).
    apply endsWith_append.
  - intros first second rest ->. cbv beta iota delta [tpl].
    exists (joinStrings ", " (map (fun t => t ++ ";") (second :: rest)) ++ ";").
    change (map (fun t => t ++ ";") (first :: second :: rest))
      with ((first ++ ";") :: (second ++ ";") :: map (fun t => t ++ ";") rest).
    rewrite joinStrings_cons, !append_assoc. reflexivity.
Qed.

Lemma variable_declaration_ends_with_two_semicolons_witness :
  after defaultOptions = true
  /\ prettyPrint "const x = 10;" Example.noComments Example.noClassBody defaultOptions
       Example.constX = Ok (Some "  const   x =   10;;")
  /\ exists ind texts,
       indentation defaultOptions = Ok ind
       /\ Forall2
            (fun d text =>
               printVariableDeclarator defaultOptions
                 (prettyPrint "const x = 10;" Example.noComments Example.noClassBody
                    defaultOptions) d = Ok (text ++ ";"))
            [ {| declarator_loc := Example.at_ 6 12;
                 id := Identifier (Example.at_ 6 7) "x";
                 init := Some (Literal (Example.at_ 10 12) "10") |} ] texts
       /\ Some "  const   x =   10;;"
          = Some (ind ++ kindText const ++ " "
                  ++ joinStrings ", " (map (fun text => text ++ ";") texts) ++ ";")
       /\ endsWith ";;" (tpl (Some "  const   x =   10;;")) = true
       /\ (forall first second rest,
             texts = first :: second :: rest ->
             exists tail,
               tpl (Some "  const   x =   10;;")
               = ind ++ kindText const ++ " " ++ first ++ ";, " ++ tail).
Proof.
  split; [reflexivity|]. split; [reflexivity|].
  apply (variable_declaration_ends_with_two_semicolons
           "const x = 10;" Example.noComments Example.noClassBody defaultOptions
           (Example.at_ 0 13) const); reflexivity.
Defined.

(** A declaration with no declarator is printed with one semicolon. *)
Lemma variable_declaration_without_declarators :
  after defaultOptions = true
  /\ prettyPrint "const ;" Example.noComments Example.noClassBody defaultOptions
       (VariableDeclaration (Example.at_ 0 7) const []) = Ok (Some "  const ;")
  /\ endsWith ";;" "  const ;" = false.
Proof. repeat split; reflexivity. Qed.

(** ** Unfolding [prettyPrint] and [printStatement] *)

Lemma prettyPrint_eq
    (sourceCode : string) (collectComments : string -> Z -> Z -> list Span)
    (printClassBody : ClassBody Node -> Options -> Result jsval)
    (options : Options) (node : Node) :
  prettyPrint sourceCode collectComments printClassBody options node
  = prettyPrintBody sourceCode collectComments printClassBody options
      (prettyPrint sourceCode collectComments printClassBody options)
      (printStatement sourceCode collectComments printClassBody options) node.
Proof. destruct node; reflexivity. Qed.

Lemma printStatement_eq
    (sourceCode : string) (collectComments : string -> Z -> Z -> list Span)
    (printClassBody : ClassBody Node -> Options -> Result jsval)
    (options : Options) (statement : Node) (isLast : option bool) :
  printStatement sourceCode collectComments printClassBody options statement isLast
  = printStatementBody sourceCode collectComments options
      (prettyPrint sourceCode collectComments printClassBody options)
      (printStatement sourceCode collectComments printClassBody options) statement isLast.
Proof. destruct statement; reflexivity. Qed.

Lemma returnText_inj (r r' : Result string) :
  returnText r = returnText r' -> r = r'.
Proof.
  destruct r as [s|e], r' as [s'|e']; unfold returnText; simpl; congruence.
Qed.

Ltac split_andb :=
  repeat match goal with
    | H : (_ && _)%bool = true |- _ => apply andb_true_iff in H; destruct H
    end.

(** ** Two runs that agree

    Two runs of the printer, each with its ambient values and its options,
    return the same result on a tree when the options give the same
    indentation, the same After flag and the same lineBreak, and the steps
    that read the ambient values or the comment format agree on the nodes of
    the tree. *)

Section Agreement.

Variables sourceCode1 sourceCode2 : string.
Variables collectComments1 collectComments2 : string -> Z -> Z -> list Span.
Variables printClassBody1 printClassBody2 : ClassBody Node -> Options -> Result jsval.
Variables options1 options2 : Options.

(** The nodes on which the two runs are known to agree. *)
Variable ok : Node -> bool.

Hypothesis Hind : indentation options1 = indentation options2.
Hypothesis Hafter : after options1 = after options2.
Hypothesis Hbreak : truthy (lineBreak options1) = truthy (lineBreak options2).

Hypothesis Hcomment : forall comment,
  ok (OfComment comment) = true ->
  printComment sourceCode1 options1 comment = printComment sourceCode2 options2 comment.

Hypothesis HclassBody : forall body,
  ok (OfClassBody body) = true ->
  printClassBody1 body options1 = printClassBody2 body options2.

Hypothesis Hcollected : forall loc id body element,
  ok (ClassDeclaration loc id body) = true ->
  In element (class_body body) ->
  isComment element = false ->
  map (formatCollected sourceCode1 options1)
    (collectComments1 sourceCode1 (start (nodeLoc element)) (end_ (nodeLoc element)))
  = map (formatCollected sourceCode2 options2)
      (collectComments2 sourceCode2 (start (nodeLoc element)) (end_ (nodeLoc element))).

Local Abbreviation pp1 := (prettyPrint sourceCode1 collectComments1 printClassBody1 options1).
Local Abbreviation pp2 := (prettyPrint sourceCode2 collectComments2 printClassBody2 options2).
Local Abbreviation ps1 := (printStatement sourceCode1 collectComments1 printClassBody1 options1).
Local Abbreviation ps2 := (printStatement sourceCode2 collectComments2 printClassBody2 options2).

Local Abbreviation agree :=
  (agree sourceCode1 sourceCode2 collectComments1 collectComments2
     printClassBody1 printClassBody2 options1 options2).

Local Abbreviation IH := (fun node => everywhere ok node = true -> agree node).

Lemma everywhere_ok (node : Node) : everywhere ok node = true -> ok node = true.
Proof. destruct node; simpl; intros H; apply andb_true_iff in H; tauto. Qed.

Lemma printList_agree (l : list Node) :
  list_all Node IH l -> forallb (everywhere ok) l = true ->
  printList pp1 l = printList pp2 l.
Proof.
  intros Hall H. unfold printList. f_equal.
  induction Hall as [|node Hnode l _ IHl]; simpl in *; [reflexivity|].
  split_andb. destruct Hnode as [-> _]; [assumption|]. now rewrite IHl.
Qed.

Lemma mapNonNull_agree (l : list (option Node)) :
  list_all (option Node) (option_all Node IH) l ->
  forallb (optionb (everywhere ok)) l = true ->
  mapNonNull pp1 l = mapNonNull pp2 l.
Proof.
  intros Hall H. rewrite !mapNonNull_filter.
  induction Hall as [|element Helement l _ IHl]; simpl in *; [reflexivity|].
  split_andb. destruct Helement as [node Hnode|]; simpl in *; [|now apply IHl].
  destruct Hnode as [-> _]; [assumption|]. now rewrite IHl.
Qed.

Lemma printBody_agree (l : list Node) :
  list_all Node IH l -> forallb (everywhere ok) l = true ->
  forall output,
    printBody sourceCode1 options1 ps1 l output = printBody sourceCode2 options2 ps2 l output.
Proof.
  intros Hall H. unfold printBody.
  generalize (Z.of_nat (List.length l) - 1) as final. generalize 0 as index.
  induction Hall as [|node Hnode l _ IHl]; intros index final output; simpl in *;
    [reflexivity|].
  split_andb.
  assert (Hok : ok node = true) by now apply everywhere_ok.
  destruct Hnode as [_ Hps]; [assumption|].
  assert (Hpiece :
    match node with
    | OfComment comment => text <- printComment sourceCode1 options1 comment ;; Ok (tpl text)
    | _ => ps1 node (Some (index =? final))
    end
    = match node with
      | OfComment comment => text <- printComment sourceCode2 options2 comment ;; Ok (tpl text)
      | _ => ps2 node (Some (index =? final))
      end).
  { destruct node; try apply Hps. now rewrite Hcomment. }
  rewrite Hpiece.
  match goal with |- bind ?r _ = bind ?r _ => destruct r as [piece|e] end; simpl;
    [apply IHl; assumption | reflexivity].
Qed.

Lemma printBlockStatement_agree (block : BlockStatement Node) :
  list_all Node IH (block_body block) ->
  forallb (everywhere ok) (block_body block) = true ->
  printBlockStatement sourceCode1 options1 ps1 block
  = printBlockStatement sourceCode2 options2 ps2 block.
Proof.
  intros Hall H. unfold printBlockStatement. rewrite Hind, Hbreak.
  destruct (indentation options2) as [ind|e]; simpl; [|reflexivity].
  now rewrite printBody_agree.
Qed.

Lemma printVariableDeclarator_agree (d : VariableDeclarator Node) :
  VariableDeclarator_all Node IH d ->
  everywhere ok (id d) && optionb (everywhere ok) (init d) = true ->
  printVariableDeclarator options1 pp1 d = printVariableDeclarator options2 pp2 d.
Proof.
  intros Hall H. destruct Hall as [loc i Hi o Ho]. simpl in H. split_andb.
  unfold printVariableDeclarator. simpl. rewrite Hind, Hafter.
  destruct Hi as [-> _]; [assumption|].
  destruct Ho as [node Hnode|]; simpl in *; [|reflexivity].
  destruct Hnode as [-> _]; [assumption|]. reflexivity.
Qed.

Lemma declarations_agree (l : list (VariableDeclarator Node)) :
  list_all (VariableDeclarator Node) (VariableDeclarator_all Node IH) l ->
  forallb (fun d => everywhere ok (id d) && optionb (everywhere ok) (init d)) l = true ->
  mapM (printVariableDeclarator options1 pp1) l = mapM (printVariableDeclarator options2 pp2) l.
Proof.
  intros Hall H.
  induction Hall as [|d Hd l _ IHl]; simpl in *; [reflexivity|].
  split_andb. rewrite (printVariableDeclarator_agree d Hd), IHl; auto.
  now apply andb_true_iff.
Qed.

Lemma classElements_agree (ind : string) (l : list Node) :
  (forall element, In element l -> isComment element = false ->
     map (formatCollected sourceCode1 options1)
       (collectComments1 sourceCode1 (start (nodeLoc element)) (end_ (nodeLoc element)))
     = map (formatCollected sourceCode2 options2)
         (collectComments2 sourceCode2 (start (nodeLoc element)) (end_ (nodeLoc element)))) ->
  list_all Node IH l -> forallb (everywhere ok) l = true ->
  mapM
    (fun element =>
       match element with
       | OfComment comment => printComment sourceCode1 options1 comment
       | _ =>
           let comment :=
             join nl
               (map (formatCollected sourceCode1 options1)
                  (collectComments1 sourceCode1
                     (start (nodeLoc element)) (end_ (nodeLoc element)))) in
           text <- pp1 element ;;
           Ok (Some (ind ++ comment ++ nl ++ ind ++ tpl text))
       end) l
  = mapM
      (fun element =>
         match element with
         | OfComment comment => printComment sourceCode2 options2 comment
         | _ =>
             let comment :=
               join nl
                 (map (formatCollected sourceCode2 options2)
                    (collectComments2 sourceCode2
                       (start (nodeLoc element)) (end_ (nodeLoc element)))) in
             text <- pp2 element ;;
             Ok (Some (ind ++ comment ++ nl ++ ind ++ tpl text))
         end) l.
Proof.
  intros Hc Hall H.
  induction Hall as [|node Hnode l _ IHl]; simpl in *; [reflexivity|].
  split_andb.
  assert (Hok : ok node = true) by now apply everywhere_ok.
  destruct Hnode as [Hpp _]; [assumption|].
  rewrite IHl by auto.
  destruct node;
    try (rewrite Hpp, (Hc _ (or_introl eq_refl) eq_refl); reflexivity).
  now rewrite Hcomment.
Qed.

Ltac use_agreement :=
  repeat match goal with
    | IHc : everywhere ?ok ?c = true -> _,
      Hc : everywhere ?ok ?c = true |- _ =>
        destruct (IHc Hc) as [? ?]; clear IHc
    | IHo : option_all Node _ ?o |- _ =>
        destruct IHo as [? ?|]; simpl in *
    | IHb : BlockStatement_all Node _ _ |- _ =>
        destruct IHb as [? ? ?]; simpl in *
    | IHb : ClassBody_all Node _ _ |- _ =>
        destruct IHb as [? ? ?]; simpl in *
    | IHf : FunctionExpression_all Node _ _ |- _ =>
        destruct IHf as [? ? ? ? ?]; simpl in *
    | IHd : VariableDeclarator_all Node _ _ |- _ =>
        destruct IHd as [? ? ? ? ?]; simpl in *
    end.

Ltac rewrite_children :=
  repeat match goal with
    | Heq : prettyPrint _ _ _ _ ?c = prettyPrint _ _ _ _ ?c |- _ => rewrite ?Heq; clear Heq
    | Heq : forall isLast, printStatement _ _ _ _ ?c isLast = _ |- _ => rewrite ?Heq; clear Heq
    end.

Lemma block_agree (block : BlockStatement Node) :
  pp1 (OfBlockStatement block) = pp2 (OfBlockStatement block) ->
  printBlockStatement sourceCode1 options1 ps1 block
  = printBlockStatement sourceCode2 options2 ps2 block.
Proof. rewrite !prettyPrint_eq. apply returnText_inj. Qed.

Ltac unfold_printers :=
  unfold returnText, printProgram, printExpressionStatement, printVariableDeclaration,
    printIdentifier, printIfStatement, printFunctionDeclaration, printClassDeclaration,
    printClassElement, printFunctionExpression, printReturnStatement, printLiteral,
    printBinaryExpression, printUnaryExpression, printCallExpression,
    printMemberExpression, printArrayExpression, printObjectExpression, printProperty,
    printArrowFunctionExpression, printThisExpression, printSpreadElement,
    printConditionalExpression.

Theorem agreement (node : Node) : everywhere ok node = true -> agree node.
Proof.
  induction node using Node_ind; intros Hev;
    pose proof (everywhere_ok _ Hev) as Hok; simpl in Hev; split_andb.
  all: use_agreement.
  all: split; [|intros isLast].
  all: rewrite ?prettyPrint_eq, ?printStatement_eq.
  all: cbv beta iota delta [prettyPrintBody printStatementBody].
  all: unfold_printers.
  all: rewrite ?Hind, ?Hafter, ?Hbreak.
  all: try reflexivity.
  all: repeat first
         [ rewrite printBlockStatement_agree by (simpl; assumption)
         | rewrite printList_agree by assumption
         | rewrite printBody_agree by assumption
         | rewrite declarations_agree by assumption
         | rewrite mapNonNull_agree by assumption ].
  all: unfold printVariableDeclarator; cbn [id init].
  all: rewrite ?Hind, ?Hafter.
  all: try match goal with
       | Heq : prettyPrint _ _ _ _ ?n = _
         |- context [match ?n with OfBlockStatement _ => _ | _ => _ end] =>
           destruct n; try rewrite (block_agree _ Heq)
       end.
  all: rewrite_children.
  all: try reflexivity.
  all: try (now rewrite Hcomment).
  all: try (now rewrite HclassBody).
  all: cbn [class_body].
  all: destruct (indentation options2) as [ind|e]; cbn [bind]; [|reflexivity].
  all: match goal with
       | Hl : list_all Node _ ?l, Hf : forallb (everywhere ok) ?l = true |- _ =>
           assert (E := classElements_agree ind l
                          (fun element => Hcollected _ _ _ element Hok) Hl Hf)
       end.
  all: cbv zeta in E; rewrite E; reflexivity.
Qed.

End Agreement.

(** ** Options that lay a tree out alike *)

(** The output depends on the options through the indentation, the After
    flag, [lineBreak] and [commentFormat] only, on a tree of which no node
    goes to [printClassBody] (which receives the options as they are). *)
Lemma sameLayout_prettyPrint
    (sourceCode : string) (collectComments : string -> Z -> Z -> list Span)
    (printClassBody : ClassBody Node -> Options -> Result jsval)
    (options1 options2 : Options) (node : Node) :
  sameLayout options1 options2 ->
  everywhere ownPrinter node = true ->
  prettyPrint sourceCode collectComments printClassBody options1 node
  = prettyPrint sourceCode collectComments printClassBody options2 node.
Proof.
  intros (Hind & Hafter & Hbreak & Hformat) Hown.
  apply (agreement sourceCode sourceCode collectComments collectComments
           printClassBody printClassBody options1 options2 ownPrinter);
    try assumption.
  - intros comment _. unfold printComment. now rewrite Hind, Hformat.
  - intros body H. discriminate H.
  - intros _ _ _ element _ _ _. apply map_ext. intros span.
    unfold formatCollected. now rewrite Hformat.
Qed.

Lemma prettyPrint_ignores_printWidth
    (sourceCode : string) (collectComments : string -> Z -> Z -> list Span)
    (printClassBody : ClassBody Node -> Options -> Result jsval)
    (options : Options) (width : option Z) (node : Node) :
  everywhere ownPrinter node = true ->
  prettyPrint sourceCode collectComments printClassBody (withPrintWidth width options) node
  = prettyPrint sourceCode collectComments printClassBody options node.
Proof. apply sameLayout_prettyPrint. repeat split. Qed.

Lemma prettyPrint_ignores_commentTypes
    (sourceCode : string) (collectComments : string -> Z -> Z -> list Span)
    (printClassBody : ClassBody Node -> Options -> Result jsval)
    (options : Options) (types : option Z) (node : Node) :
  everywhere ownPrinter node = true ->
  prettyPrint sourceCode collectComments printClassBody (withCommentTypes types options) node
  = prettyPrint sourceCode collectComments printClassBody options node.
Proof. apply sameLayout_prettyPrint. repeat split. Qed.

Lemma prettyPrint_ignores_tabWidth_with_tabs
    (sourceCode : string) (collectComments : string -> Z -> Z -> list Span)
    (printClassBody : ClassBody Node -> Options -> Result jsval)
    (options : Options) (width : option Z) (node : Node) :
  truthy (useTabs options) = true ->
  everywhere ownPrinter node = true ->
  prettyPrint sourceCode collectComments printClassBody (withTabWidth width options) node
  = prettyPrint sourceCode collectComments printClassBody options node.
Proof.
  intros Htabs. apply sameLayout_prettyPrint. repeat split.
  unfold indentation. simpl. now rewrite Htabs.
Qed.

(** ** Trees built from the supported variants *)

Lemma isUnsupported_bind {A B : Type} (r : Result A) (k : A -> Result B) :
  isUnsupported r = false ->
  (forall a, isUnsupported (k a) = false) ->
  isUnsupported (bind r k) = false.
Proof. destruct r as [a|e]; simpl; intros Hr Hk; [apply Hk | exact Hr]. Qed.

Lemma isUnsupported_indentation (options : Options) :
  isUnsupported (indentation options) = false.
Proof.
  unfold indentation, repeat.
  destruct (truthy (useTabs options)); [reflexivity|].
  destruct (tabWidth options) as [n|]; [|reflexivity].
  destruct (n <? 0); reflexivity.
Qed.

Lemma isUnsupported_printComment (sourceCode : string) (options : Options) (c : Comment) :
  isUnsupported (printComment sourceCode options c) = false.
Proof.
  unfold printComment. apply isUnsupported_bind; [apply isUnsupported_indentation|].
  reflexivity.
Qed.

Section Supported.

Variable sourceCode : string.
Variable collectComments : string -> Z -> Z -> list Span.
Variable printClassBody : ClassBody Node -> Options -> Result jsval.
Variable options : Options.

(** Whether nodes tagged ClassBody count as supported; if they do,
    [printClassBody] is taken to throw no unsupported-node error. *)
Variable classBody : bool.
Hypothesis HclassBody :
  classBody = true -> forall body, isUnsupported (printClassBody body options) = false.

Local Abbreviation pp := (prettyPrint sourceCode collectComments printClassBody options).
Local Abbreviation ps := (printStatement sourceCode collectComments printClassBody options).

Local Abbreviation safe := (safe sourceCode collectComments printClassBody options).

Local Abbreviation IH := (fun node => supportedIf classBody node = true -> safe node).

Ltac bind_steps :=
  repeat first
    [ assumption
    | reflexivity
    | apply isUnsupported_indentation
    | apply isUnsupported_printComment
    | apply isUnsupported_bind; [|intros ?] ].

Lemma printList_supported (l : list Node) :
  list_all Node IH l -> forallb (supportedIf classBody) l = true ->
  isUnsupported (printList pp l) = false.
Proof.
  intros Hall H. unfold printList. apply isUnsupported_bind; [|reflexivity].
  induction Hall as [|node Hnode l _ IHl]; simpl in *; [reflexivity|].
  split_andb. destruct Hnode as [Hpp _]; [assumption|]. bind_steps. now apply IHl.
Qed.

Lemma mapNonNull_supported (l : list (option Node)) :
  list_all (option Node) (option_all Node IH) l ->
  forallb (optionb (supportedIf classBody)) l = true ->
  isUnsupported (mapNonNull pp l) = false.
Proof.
  intros Hall H. rewrite mapNonNull_filter.
  induction Hall as [|element Helement l _ IHl]; simpl in *; [reflexivity|].
  split_andb. destruct Helement as [node Hnode|]; simpl in *; [|now apply IHl].
  destruct Hnode as [Hpp _]; [assumption|]. bind_steps. now apply IHl.
Qed.

Lemma printBody_supported (l : list Node) :
  list_all Node IH l ->
  forallb (fun n => isBodyItem n && supportedIf classBody n) l = true ->
  forall output, isUnsupported (printBody sourceCode options ps l output) = false.
Proof.
  intros Hall H. unfold printBody.
  generalize (Z.of_nat (List.length l) - 1) as final. generalize 0 as index.
  induction Hall as [|node Hnode l _ IHl]; intros index final output; simpl in *;
    [reflexivity|].
  split_andb. destruct Hnode as [_ Hps]; [assumption|].
  apply isUnsupported_bind; [|intros piece; now apply IHl].
  destruct node; try discriminate; try (apply Hps; reflexivity).
  bind_steps.
Qed.

Lemma printBlockStatement_supported (block : BlockStatement Node) :
  list_all Node IH (block_body block) ->
  forallb (fun n => isBodyItem n && supportedIf classBody n) (block_body block) = true ->
  isUnsupported (printBlockStatement sourceCode options ps block) = false.
Proof.
  intros Hall H. unfold printBlockStatement. bind_steps.
  now apply printBody_supported.
Qed.

Lemma declarations_supported (l : list (VariableDeclarator Node)) :
  list_all (VariableDeclarator Node) (VariableDeclarator_all Node IH) l ->
  forallb (fun d => supportedIf classBody (id d) && optionb (supportedIf classBody) (init d)) l = true ->
  isUnsupported (mapM (printVariableDeclarator options pp) l) = false.
Proof.
  intros Hall H.
  induction Hall as [|d Hd l _ IHl]; simpl in *; [reflexivity|].
  split_andb. apply isUnsupported_bind; [|intros text; bind_steps; now apply IHl].
  destruct Hd as [loc i Hi o Ho]. simpl in *. unfold printVariableDeclarator. simpl.
  destruct Hi as [Hi _]; [assumption|].
  destruct Ho as [node Hnode|]; simpl in *; [destruct Hnode as [Hn _]; [assumption|]|];
    bind_steps.
Qed.

Lemma classElements_supported (ind : string) (l : list Node) :
  list_all Node IH l -> forallb (supportedIf classBody) l = true ->
  isUnsupported
    (mapM
       (fun element =>
          match element with
          | OfComment comment => printComment sourceCode options comment
          | _ =>
              text <- pp element ;;
              Ok (Some (ind
                        ++ join nl
                             (map (formatCollected sourceCode options)
                                (collectComments sourceCode
                                   (start (nodeLoc element)) (end_ (nodeLoc element))))
                        ++ nl ++ ind ++ tpl text))
          end) l) = false.
Proof.
  intros Hall H.
  induction Hall as [|node Hnode l _ IHl]; simpl in *; [reflexivity|].
  split_andb. destruct Hnode as [Hpp _]; [assumption|].
  apply isUnsupported_bind; [|intros text; bind_steps; now apply IHl].
  destruct node; bind_steps.
Qed.

Lemma block_safe (block : BlockStatement Node) :
  isUnsupported (pp (OfBlockStatement block)) = false ->
  isUnsupported (printBlockStatement sourceCode options ps block) = false.
Proof.
  rewrite prettyPrint_eq. cbv beta iota delta [prettyPrintBody]. unfold returnText.
  now destruct (printBlockStatement _ _ _ block) as [text|[]].
Qed.

Ltac use_supported :=
  repeat match goal with
    | IHc : supportedIf _ ?c = true -> _, Hc : supportedIf _ ?c = true |- _ =>
        destruct (IHc Hc) as [? ?]; clear IHc
    | IHo : option_all Node _ ?o |- _ =>
        destruct IHo as [? ?|]; simpl in *; split_andb
    | IHb : BlockStatement_all Node _ _ |- _ =>
        destruct IHb as [? ? ?]; simpl in *
    | IHb : ClassBody_all Node _ _ |- _ =>
        destruct IHb as [? ? ?]; simpl in *
    | IHf : FunctionExpression_all Node _ _ |- _ =>
        destruct IHf as [? ? ? ? ?]; simpl in *
    | IHd : VariableDeclarator_all Node _ _ |- _ =>
        destruct IHd as [? ? ? ? ?]; simpl in *; split_andb
    end.

Ltac unfold_printers :=
  unfold returnText, printProgram, printExpressionStatement, printVariableDeclaration,
    printIdentifier, printIfStatement, printFunctionDeclaration, printClassDeclaration,
    printClassElement, printFunctionExpression, printReturnStatement, printLiteral,
    printBinaryExpression, printUnaryExpression, printCallExpression,
    printMemberExpression, printArrayExpression, printObjectExpression, printProperty,
    printArrowFunctionExpression, printThisExpression, printSpreadElement,
    printConditionalExpression, printVariableDeclarator.

Ltac leaves :=
  repeat first
    [ assumption
    | reflexivity
    | apply HclassBody; assumption
    | apply isUnsupported_indentation
    | apply isUnsupported_printComment
    | apply printList_supported; assumption
    | apply printBody_supported; assumption
    | apply printBlockStatement_supported; simpl; assumption
    | apply declarations_supported; assumption
    | apply mapNonNull_supported; assumption
    | apply classElements_supported; assumption
    | match goal with
      | Hs : isStatement ?c = true -> forall isLast, _, Hi : isStatement ?c = true
        |- isUnsupported (printStatement _ _ _ _ ?c _) = false => apply (Hs Hi)
      end
    | match goal with
      | |- isUnsupported (if ?b then _ else _) = false => destruct b
      end
    | match goal with
      | Hb : isUnsupported (prettyPrint _ _ _ _ ?n) = false
        |- isUnsupported (match ?n with OfBlockStatement _ => _ | _ => _ end) = false =>
          destruct n; try apply (block_safe _ Hb)
      end
    | apply isUnsupported_bind; [|intros ?] ].

Theorem supportedIf_safe (node : Node) : supportedIf classBody node = true -> safe node.
Proof.
  induction node using Node_ind; intros Hsup; simpl in Hsup; split_andb;
    try discriminate.
  all: use_supported.
  all: split; [|intros Hst isLast; try discriminate Hst].
  all: rewrite ?prettyPrint_eq, ?printStatement_eq.
  all: cbv beta iota delta [prettyPrintBody printStatementBody].
  all: unfold_printers; cbn [id init class_body function_body params].
  all: leaves.
Qed.

End Supported.

(** ** Unsupported nodes *)

Lemma printStatement_other
    (sourceCode : string) (collectComments : string -> Z -> Z -> list Span)
    (printClassBody : ClassBody Node -> Options -> Result jsval)
    (options : Options) (statement : Node) (isLast : option bool) :
  isStatement statement = false ->
  printStatement sourceCode collectComments printClassBody options statement isLast
  = (_ <- indentation options ;; Throw (UnsupportedStatementType (nodeType statement))).
Proof.
  intros H. rewrite printStatement_eq. unfold printStatementBody.
  destruct (indentation options) as [ind|e]; [|reflexivity].
  destruct statement; try discriminate H; reflexivity.
Qed.

(** C4.  On a node whose tag has no case in its switch, [prettyPrint] throws
    the unsupported-node error that names the tag, whatever the options; so
    does [printStatement], once the indentation is computed, on a node that is
    not of a statement variant.  On a tree built only from supported variants
    [prettyPrint] throws no error of that kind: on a tree without a node
    tagged ClassBody whatever [printClassBody] is, and on a tree with such
    nodes if [printClassBody], which is no part of the file, throws none. *)
Theorem unsupported_node_error
    (sourceCode : string) (collectComments : string -> Z -> Z -> list Span)
    (printClassBody : ClassBody Node -> Options -> Result jsval)
    (options : Options) (node : Node) :
  (isMapped (nodeType node) = false ->
   prettyPrint sourceCode collectComments printClassBody options node
   = Throw (UnsupportedNodeType (nodeType node)))
  /\ (isStatement node = false ->
      forall isLast,
        printStatement sourceCode collectComments printClassBody options node isLast
        = (_ <- indentation options ;; Throw (UnsupportedStatementType (nodeType node))))
  /\ (supported node = true ->
      isUnsupported (prettyPrint sourceCode collectComments printClassBody options node)
      = false)
  /\ ((forall body, isUnsupported (printClassBody body options) = false) ->
      supportedIf true node = true ->
      isUnsupported (prettyPrint sourceCode collectComments printClassBody options node)
      = false).
Proof.
  split; [|split; [|split]].
  - destruct node; intros H; try discriminate H. reflexivity.
  - intros H isLast. now apply printStatement_other.
  - intros H. now apply (supportedIf_safe _ _ _ _ false).
  - intros Hbody H. now apply (supportedIf_safe _ _ _ _ true).
Qed.

Lemma unsupported_node_error_witness :
  prettyPrint "while (x) {}" Example.noComments Example.noClassBody defaultOptions
    (Other "WhileStatement" eq_refl (Example.at_ 0 12))
  = Throw (UnsupportedNodeType "WhileStatement")
  /\ isUnsupported
       (prettyPrint "const x = 10;" Example.noComments Example.noClassBody defaultOptions
          (Program (Example.at_ 0 13) [Example.constX])) = false.
Proof.
  split.
  - apply (proj1 (unsupported_node_error "while (x) {}" Example.noComments
                    Example.noClassBody defaultOptions
                    (Other "WhileStatement" eq_refl (Example.at_ 0 12)))).
    reflexivity.
  - apply (proj1 (proj2 (proj2 (unsupported_node_error "const x = 10;"
                                  Example.noComments Example.noClassBody defaultOptions
                                  (Program (Example.at_ 0 13) [Example.constX]))))).
    reflexivity.
Defined.

(** A node of a mapped variant where the interfaces want a statement (the
    [body] of a program is typed [(Statement | Comment)[]]) is refused by
    [printStatement]: the supported trees are those in which every node is of
    a variant supported where it stands. *)
Lemma identifier_in_statement_position :
  supported (Program (Example.at_ 0 1) [Identifier (Example.at_ 0 1) "x"]) = false
  /\ prettyPrint "x" Example.noComments Example.noClassBody defaultOptions
       (Program (Example.at_ 0 1) [Identifier (Example.at_ 0 1) "x"])
     = Throw (UnsupportedStatementType "Identifier").
Proof. split; reflexivity. Qed.

(** ** Configuration and line width *)

Lemma indentation_negative (options : Options) (n : Z) :
  n < 0 -> truthy (useTabs options) = false ->
  indentation (withTabWidth (Some n) options) = Throw RangeError.
Proof.
  intros Hn Htabs. unfold indentation. simpl. rewrite Htabs. simpl.
  apply Z.ltb_lt in Hn. now rewrite Hn.
Qed.




(** C1, at the failing input.  With a width of 10 the chain
    [1111 + 2222 + 3333 + 4444] is printed on one line of 32 characters,
    which holds more than one token; the output is the same for every
    width. *)
Theorem binary_chain_exceeds_width
    (sourceCode : string) (collectComments : string -> Z -> Z -> list Span)
    (printClassBody : ClassBody Node -> Options -> Result jsval) :
  let render := prettyPrint sourceCode collectComments printClassBody in
  render (withPrintWidth (Some 10) defaultOptions) WidthExample.program
  = Ok (Some WidthExample.output)
  /\ lines WidthExample.output = [WidthExample.output]
  /\ String.length WidthExample.output = 32%nat
  /\ singleToken WidthExample.output = false
  /\ respectsWidth 10 WidthExample.output = false
  /\ (forall width,
        render (withPrintWidth width defaultOptions) WidthExample.program
        = Ok (Some WidthExample.output)).
Proof.
  intros render. split; [reflexivity|]. do 4 (split; [reflexivity|]).
  intros width. unfold render.
  rewrite prettyPrint_ignores_printWidth; reflexivity.
Qed.

(** ** Comments *)

(** C2, at the failing input.  With a filter that retains no kind of comment
    the comment of the program is printed all the same; the output is the
    same for every value of [commentTypes]. *)
Theorem filtered_comment_is_printed
    (collectComments : string -> Z -> Z -> list Span)
    (printClassBody : ClassBody Node -> Options -> Result jsval) :
  let render := prettyPrint CommentExample.sourceCode collectComments printClassBody in
  render (withCommentTypes (Some CommentTypeFlags.None) defaultOptions)
    CommentExample.program
  = Ok (Some ("/* note */" ++ nl ++ "  const   x =   10;;"))
  /\ (forall types,
        render (withCommentTypes types defaultOptions) CommentExample.program
        = Ok (Some ("/* note */" ++ nl ++ "  const   x =   10;;"))).
Proof.
  intros render. split; [reflexivity|].
  intros types. unfold render.
  rewrite prettyPrint_ignores_commentTypes; reflexivity.
Qed.

Lemma countChar_trimStart (c : ascii) (s : string) :
  isWhiteSpace c = false -> countChar c (trimStart s) = countChar c s.
Proof.
  intros Hc. induction s as [|c' s IH]; [reflexivity|].
  cbn [trimStart]. destruct (isWhiteSpace c') eqn:Hc'; [|reflexivity].
  rewrite IH. cbn [countChar].
  destruct (Ascii.eqb_spec c c') as [->|_]; [congruence | reflexivity].
Qed.

Lemma countChar_trimEnd (c : ascii) (s : string) :
  isWhiteSpace c = false -> countChar c (trimEnd s) = countChar c s.
Proof.
  intros Hc. induction s as [|c' s IH]; [reflexivity|].
  cbn [trimEnd countChar]. rewrite <- IH.
  destruct (trimEnd s) as [|c'' rest]; [|reflexivity].
  destruct (isWhiteSpace c') eqn:Hc'; [|reflexivity].
  cbn [countChar]. destruct (Ascii.eqb_spec c c') as [->|_]; [congruence | reflexivity].
Qed.

Lemma countChar_trim (c : ascii) (s : string) :
  isWhiteSpace c = false -> countChar c (trim s) = countChar c s.
Proof.
  intros Hc. unfold trim. now rewrite countChar_trimEnd, countChar_trimStart.
Qed.

(** Under the After flag the program [const x = 10;] followed by a comment is
    printed, whatever the other options, the ambient values and the comment
    are, with two semicolons at least. *)
Lemma declaration_then_comment_semicolons
    (sourceCode : string) (collectComments : string -> Z -> Z -> list Span)
    (printClassBody : ClassBody Node -> Options -> Result jsval)
    (options : Options) (loc : Span) (comment : Comment) (out : jsval) :
  after options = true ->
  prettyPrint sourceCode collectComments printClassBody options
    (Program loc [Example.constX; OfComment comment]) = Ok out ->
  (2 <= countChar ";" (tpl out))%nat.
Proof.
  intros Hafter H. rewrite prettyPrint_eq in H.
  cbv beta iota delta [prettyPrintBody] in H.
  unfold returnText, printProgram, printBody in H.
  apply bind_Ok in H as (text & H & Hout). inversion Hout; subst out; clear Hout.
  apply bind_Ok in H as (ind & Hind & H).
  apply bind_Ok in H as (output & H & Htext). inversion Htext; subst text; clear Htext.
  cbn [forEach] in H.
  apply bind_Ok in H as (piece1 & H1 & H).
  apply bind_Ok in H as (piece2 & H2 & H). inversion H; subst output; clear H.
  cbn [tpl]. rewrite countChar_trim by reflexivity. rewrite !countChar_append.
  enough (2 <= countChar ";" piece1)%nat by lia.
  clear H2. rewrite printStatement_eq in H1.
  unfold printStatementBody in H1. rewrite Hind in H1.
  cbn [bind Example.constX Example.constXAt] in H1.
  unfold printVariableDeclaration, printVariableDeclarator in H1.
  rewrite Hind, Hafter in H1. cbn [bind mapM id init] in H1.
  rewrite !prettyPrint_eq in H1. cbv beta iota delta [prettyPrintBody] in H1.
  unfold returnText, printIdentifier, printLiteral in H1. rewrite Hind in H1.
  cbn [bind tpl joinStrings truthy] in H1. inversion H1; subst piece1.
  rewrite !countChar_append. cbn [countChar]. simpl. lia.
Qed.

(** C6, at the failing input.  The declaration [const x = 10;] followed by the
    comment [keep], printed with the single-line format, the After placement
    and a width of 80, comes out on two lines, the declaration with the
    indentation before the name and the value and with two semicolons.  It is
    so too when the span of the comment takes in its marker; and no options
    with the After flag, ambient values or comment make the output the one
    line [const x = 10; // keep]. *)
Theorem trailing_comment_is_on_its_own_line
    (collectComments : string -> Z -> Z -> list Span)
    (printClassBody : ClassBody Node -> Options -> Result jsval) :
  let render :=
    prettyPrint CommentExample.keepSource collectComments printClassBody
      CommentExample.keepOptions in
  render CommentExample.keepProgram
  = Ok (Some ("const   x =   10;;" ++ nl ++ "  // keep"))
  /\ lines ("const   x =   10;;" ++ nl ++ "  // keep") = ["const   x =   10;;"; "  // keep"]
  /\ "const   x =   10;;" ++ nl ++ "  // keep" <> "const x = 10; // keep"
  /\ render (Program (Example.at_ 0 21)
               [Example.constX; OfComment CommentExample.keepWithMarker])
     = Ok (Some ("const   x =   10;;" ++ nl ++ "  // // keep"))
  /\ (forall sourceCode options loc comment,
        after options = true ->
        prettyPrint sourceCode collectComments printClassBody options
          (Program loc [Example.constX; OfComment comment])
        <> Ok (Some "const x = 10; // keep")).
Proof.
  intros render. do 4 (split; [first [reflexivity | discriminate]|]).
  intros sourceCode options loc comment Hafter H.
  apply declaration_then_comment_semicolons in H; [|exact Hafter].
  cbn in H. lia.
Qed.

(** C7, with the failing input.  For each of the four formats the comment is
    printed as the indentation, the opening delimiter of the format, the text
    of the comment as it is in the source, the closing delimiter and a line
    feed; the placement options and the placement tag of the comment have no
    part in it.  In the doc format the second line of a comment of two lines is
    printed as it is, with no star before it. *)
Theorem comment_surface_forms
    (collectComments : string -> Z -> Z -> list Span)
    (printClassBody : ClassBody Node -> Options -> Result jsval) :
  (forall sourceCode options format comment,
      printComment sourceCode (withCommentFormat (Some format) options) comment
      = (ind <- indentation options ;;
         Ok (Some (ind ++ opening format ++ commentText sourceCode (comment_loc comment)
                   ++ closing format ++ nl))))
  /\ (forall sourceCode options comment placement flag tag,
        printComment sourceCode (withCommentPlacement placement flag options)
          {| comment_loc := comment_loc comment;
             comment_value := comment_value comment;
             comment_flag := tag |}
        = printComment sourceCode options comment)
  /\ prettyPrint CommentExample.twoLines collectComments printClassBody
       (withCommentFormat (Some JsDoc) defaultOptions)
       (OfComment CommentExample.twoLineComment)
     = Ok (Some ("  /** first" ++ nl ++ "second */" ++ nl))
  /\ lines ("  /** first" ++ nl ++ "second */" ++ nl) = ["  /** first"; "second */"; ""]
  /\ starred "second */" = false.
Proof.
  split; [|split; [|repeat split; reflexivity]].
  - intros sourceCode options format comment. unfold printComment.
    change (indentation (withCommentFormat (Some format) options))
      with (indentation options).
    destruct (indentation options) as [ind|e]; [|reflexivity].
    destruct format; reflexivity.
  - intros sourceCode options comment placement flag tag. reflexivity.
Qed.

(** ** The ambient source text *)

(** C3, as amended.  The result is a function of the node, the options and
    the ambient values.  Of the ambient source text it depends through the
    text of the comments only: two runs on the same node with the same options
    return the same result when the two source texts give every comment of the
    tree the same text, whatever [collectComments] and [printClassBody] are in
    each run, provided the tree has no class declaration with an element
    other than a comment and no node for [printClassBody]. *)
Theorem result_depends_on_source_through_comments
    (sourceCode1 sourceCode2 : string)
    (collectComments1 collectComments2 : string -> Z -> Z -> list Span)
    (printClassBody1 printClassBody2 : ClassBody Node -> Options -> Result jsval)
    (options : Options) (node : Node)
    (Hsame : everywhere (sameCommentText sourceCode1 sourceCode2) node = true) :
  prettyPrint sourceCode1 collectComments1 printClassBody1 options node
  = prettyPrint sourceCode2 collectComments2 printClassBody2 options node.
Proof.
  apply (agreement sourceCode1 sourceCode2 collectComments1 collectComments2
           printClassBody1 printClassBody2 options options
           (sameCommentText sourceCode1 sourceCode2)); try reflexivity; try assumption.
  - intros comment H. simpl in H. apply String.eqb_eq in H.
    unfold printComment. now rewrite H.
  - intros body H. discriminate H.
  - intros loc id body element H Hin Hnot. simpl in H.
    rewrite forallb_forall in H. specialize (H element Hin). congruence.
Qed.

Lemma result_depends_on_source_through_comments_witness :
  everywhere (sameCommentText "const x = 10; // keep" "const y = 10; // keep")
    CommentExample.keepProgram = true
  /\ prettyPrint "const x = 10; // keep" Example.noComments Example.noClassBody
       CommentExample.keepOptions CommentExample.keepProgram
     = prettyPrint "const y = 10; // keep" (fun _ _ _ => [Example.at_ 0 5])
         (fun _ _ => Throw RangeError) CommentExample.keepOptions CommentExample.keepProgram.
Proof.
  split; [reflexivity|].
  apply (result_depends_on_source_through_comments
           "const x = 10; // keep" "const y = 10; // keep").
  reflexivity.
Defined.

(** The same node and the same options, printed under two source texts. *)
Lemma ambient_source_changes_the_result :
  let node := Program (Example.at_ 0 4)
                [OfComment {| comment_loc := Example.at_ 0 4;
                              comment_value := "";
                              comment_flag := None |}] in
  prettyPrint "keep" Example.noComments Example.noClassBody defaultOptions node
  = Ok (Some "/* keep */")
  /\ prettyPrint "drop" Example.noComments Example.noClassBody defaultOptions node
     = Ok (Some "/* drop */")
  /\ prettyPrint "keep" Example.noComments Example.noClassBody defaultOptions node
     <> prettyPrint "drop" Example.noComments Example.noClassBody defaultOptions node.
Proof. repeat split; try reflexivity. discriminate. Qed.

(** ** Composition of calls *)

Lemma bind_assoc {A B C : Type} (r : Result A) (f : A -> Result B) (g : B -> Result C) :
  bind (bind r f) g = bind r (fun a => bind (f a) g).
Proof. destruct r; reflexivity. Qed.

(** ** The two dispatchers and the bodies of programs and blocks *)

Section Dispatch.

Variable sourceCode : string.
Variable collectComments : string -> Z -> Z -> list Span.
Variable printClassBody : ClassBody Node -> Options -> Result jsval.
Variable options : Options.

Local Abbreviation pp := (prettyPrint sourceCode collectComments printClassBody options).
Local Abbreviation ps := (printStatement sourceCode collectComments printClassBody options).

Lemma printStatement_prettyPrint (statement : Node) (isLast : option bool) :
  isStatement statement = true ->
  ps statement isLast
  = (text <- pp statement ;;
     Ok (if truthy isLast then tpl text else tpl text ++ nl)).
Proof.
  intros Hst. rewrite printStatement_eq, prettyPrint_eq.
  cbv beta iota delta [prettyPrintBody printStatementBody].
  destruct statement; try discriminate Hst.
  all: unfold returnText; rewrite bind_assoc; cbn [bind tpl].
  all: unfold printExpressionStatement, printVariableDeclaration,
         printIfStatement, printBlockStatement, printFunctionDeclaration,
         printClassDeclaration, printReturnStatement.
  all: destruct (indentation options) as [ind|e]; reflexivity.
Qed.

Lemma forEach_statements (final : Z) (l : list Node) :
  forallb isStatement l = true ->
  forall index output,
    index + Z.of_nat (List.length l) = final + 1 ->
    forEach
      (fun node index =>
         match node with
         | OfComment comment =>
             text <- printComment sourceCode options comment ;; Ok (tpl text)
         | _ => ps node (Some (index =? final))
         end) l index output
    = (texts <- mapM pp l ;; Ok (output ++ joinStrings nl (map tpl texts))).
Proof.
  induction l as [|x rest IH]; intros Hst index output Hlen.
  - simpl. now rewrite append_nil_r.
  - cbn [forallb] in Hst. apply andb_true_iff in Hst as [Hx Hrest].
    cbn [forEach mapM].
    replace (match x with
             | OfComment comment =>
                 text <- printComment sourceCode options comment ;; Ok (tpl text)
             | _ => ps x (Some (index =? final))
             end) with (ps x (Some (index =? final)))
      by (destruct x; try discriminate Hx; reflexivity).
    rewrite (printStatement_prettyPrint x _ Hx).
    destruct (pp x) as [text|e]; cbn [bind truthy]; [|reflexivity].
    destruct rest as [|y rest'].
    + cbn [List.length] in Hlen.
      replace (index =? final) with true by (symmetry; apply Z.eqb_eq; lia).
      reflexivity.
    + replace (index =? final) with false
        by (symmetry; apply Z.eqb_neq; cbn [List.length] in Hlen; lia).
      cbn [bind].
      rewrite (IH Hrest (index + 1) (output ++ tpl text ++ nl))
        by (cbn [List.length] in *; lia).
      destruct (mapM pp (y :: rest')) as [texts|e] eqn:Htexts; cbn [bind]; [|reflexivity].
      apply mapM_Ok_length in Htexts.
      destruct texts as [|t texts']; [discriminate Htexts|].
      cbn [map]. rewrite joinStrings_cons, !append_assoc. reflexivity.
Qed.

Lemma printBody_statements (body : list Node) (output : string) :
  forallb isStatement body = true ->
  printBody sourceCode options ps body output
  = (texts <- mapM pp body ;; Ok (output ++ joinStrings nl (map tpl texts))).
Proof.
  intros Hst. unfold printBody. apply forEach_statements; [assumption | lia].
Qed.

End Dispatch.

(** ** Which trees are printed *)

Lemma decides_Ok {A : Type} (a : A) : decides true (Ok a).
Proof. split; reflexivity. Qed.

Lemma decides_bind {A B : Type} (b1 b2 : bool) (r : Result A) (k : A -> Result B) :
  decides b1 r -> (forall a, decides b2 (k a)) -> decides (b1 && b2) (bind r k).
Proof.
  intros [Hok Hun] Hk. destruct r as [a|e]; simpl in *; subst b1.
  - apply Hk.
  - split; [reflexivity | exact Hun].
Qed.

Lemma decides_eq {A : Type} (b b' : bool) (r : Result A) :
  decides b r -> b = b' -> decides b' r.
Proof. now intros H <-. Qed.

Lemma decides_returnText (b : bool) (r : Result string) :
  decides b (returnText r) <-> decides b r.
Proof. unfold decides, returnText. destruct r as [s|e]; simpl; tauto. Qed.

Lemma decides_mapM {A B : Type} (p : A -> bool) (f : A -> Result B) (l : list A) :
  Forall (fun x => decides (p x) (f x)) l -> decides (forallb p l) (mapM f l).
Proof.
  induction 1 as [|x l Hx _ IH]; cbn [forallb mapM]; [apply decides_Ok|].
  apply decides_bind; [exact Hx | intros y].
  apply (decides_eq (forallb p l && true)); [|apply andb_true_r].
  apply decides_bind; [exact IH | intros ys; apply decides_Ok].
Qed.

Lemma decides_forEach {A : Type} (p : A -> bool) (f : A -> Z -> Result string) (l : list A) :
  Forall (fun x => forall index, decides (p x) (f x index)) l ->
  forall index output, decides (forallb p l) (forEach f l index output).
Proof.
  induction 1 as [|x l Hx _ IH]; intros index output; cbn [forallb forEach];
    [apply decides_Ok|].
  apply decides_bind; [apply Hx | intros piece; apply IH].
Qed.

Section Outcome.

Variable sourceCode : string.
Variable collectComments : string -> Z -> Z -> list Span.
Variable printClassBody : ClassBody Node -> Options -> Result jsval.
Variable options : Options.

Variable ind : string.
Hypothesis Hind : indentation options = Ok ind.

Local Abbreviation pp := (prettyPrint sourceCode collectComments printClassBody options).
Local Abbreviation ps := (printStatement sourceCode collectComments printClassBody options).

Local Abbreviation IH :=
  (fun node =>
     everywhere ownPrinter node = true ->
     decides (supportedIf false node) (pp node)
     /\ forall isLast, decides (isStatement node && supportedIf false node) (ps node isLast)).

Lemma decides_printComment (comment : Comment) :
  decides true (printComment sourceCode options comment).
Proof. unfold printComment. rewrite Hind. apply decides_Ok. Qed.

Lemma decides_indentation : decides true (indentation options).
Proof. rewrite Hind. apply decides_Ok. Qed.

Lemma list_all_Forall {A : Type} (P Q : A -> Prop) (q : A -> bool) (l : list A) :
  (forall x, P x -> q x = true -> Q x) ->
  list_all A P l -> forallb q l = true -> Forall Q l.
Proof.
  intros HPQ Hall. induction Hall as [|x Hx l _ IHl]; cbn [forallb]; intros H;
    constructor; apply andb_true_iff in H as [H1 H2]; auto.
Qed.

Lemma printList_decides (l : list Node) :
  list_all Node IH l -> forallb (everywhere ownPrinter) l = true ->
  decides (forallb (supportedIf false) l) (printList pp l).
Proof.
  intros Hall H. unfold printList.
  apply (decides_eq (forallb (supportedIf false) l && true)); [|apply andb_true_r].
  apply decides_bind; [|intros texts; apply decides_Ok].
  apply decides_mapM. revert Hall H. apply list_all_Forall.
  intros x Hx Hev. now apply Hx.
Qed.

Lemma mapNonNull_decides (l : list (option Node)) :
  list_all (option Node) (option_all Node IH) l ->
  forallb (optionb (everywhere ownPrinter)) l = true ->
  decides (forallb (optionb (supportedIf false)) l) (mapNonNull pp l).
Proof.
  intros Hall H.
  induction Hall as [|element Helement l _ IHl]; cbn [forallb] in *; [apply decides_Ok|].
  apply andb_true_iff in H as [H1 H2].
  destruct Helement as [node Hnode|]; cbn [optionb mapNonNull] in *;
    [|apply (IHl H2)].
  apply decides_bind; [now apply Hnode | intros text].
  apply (decides_eq (forallb (optionb (supportedIf false)) l && true));
    [|apply andb_true_r].
  apply decides_bind; [apply (IHl H2) | intros texts; apply decides_Ok].
Qed.

Lemma printBody_decides (l : list Node) :
  list_all Node IH l -> forallb (everywhere ownPrinter) l = true ->
  forall output,
    decides (forallb (fun n => isBodyItem n && supportedIf false n) l)
      (printBody sourceCode options ps l output).
Proof.
  intros Hall H output. unfold printBody. apply decides_forEach.
  revert Hall H. apply list_all_Forall. intros x Hx Hev index.
  destruct (Hx Hev) as [_ Hps].
  destruct x; try apply Hps.
  apply (decides_eq (true && true)); [|reflexivity].
  apply decides_bind; [apply decides_printComment | intros text; apply decides_Ok].
Qed.

Lemma printBlockStatement_decides (block : BlockStatement Node) :
  list_all Node IH (block_body block) ->
  forallb (everywhere ownPrinter) (block_body block) = true ->
  decides (forallb (fun n => isBodyItem n && supportedIf false n) (block_body block))
    (printBlockStatement sourceCode options ps block).
Proof.
  intros Hall H. unfold printBlockStatement. rewrite Hind. cbn [bind].
  eapply decides_eq; [|apply andb_true_r].
  apply decides_bind; [now apply printBody_decides | intros output; apply decides_Ok].
Qed.

Lemma printVariableDeclarator_decides (d : VariableDeclarator Node) :
  VariableDeclarator_all Node IH d ->
  everywhere ownPrinter (id d) && optionb (everywhere ownPrinter) (init d) = true ->
  decides (supportedIf false (id d) && optionb (supportedIf false) (init d))
    (printVariableDeclarator options pp d).
Proof.
  intros Hall H. destruct Hall as [loc i Hi o Ho]. cbn [id init] in *.
  apply andb_true_iff in H as [H1 H2].
  unfold printVariableDeclarator. rewrite Hind. cbn [bind id init].
  apply decides_bind; [now apply Hi | intros text].
  destruct Ho as [node Hnode|]; cbn [optionb] in *.
  - apply (decides_eq ((supportedIf false node && true) && true)); [|btauto].
    apply decides_bind; [|intros output; apply decides_Ok].
    apply decides_bind; [now apply Hnode | intros t; apply decides_Ok].
  - apply decides_Ok.
Qed.

Lemma declarations_decides (l : list (VariableDeclarator Node)) :
  list_all (VariableDeclarator Node) (VariableDeclarator_all Node IH) l ->
  forallb (fun d => everywhere ownPrinter (id d) && optionb (everywhere ownPrinter) (init d)) l
  = true ->
  decides
    (forallb (fun d => supportedIf false (id d) && optionb (supportedIf false) (init d)) l)
    (mapM (printVariableDeclarator options pp) l).
Proof.
  intros Hall H. apply decides_mapM.
  induction Hall as [|d Hd l _ IHl]; cbn [forallb] in H; constructor;
    apply andb_true_iff in H as [H1 H2]; auto.
  now apply printVariableDeclarator_decides.
Qed.

Lemma classElements_decides (l : list Node) :
  list_all Node IH l -> forallb (everywhere ownPrinter) l = true ->
  decides (forallb (supportedIf false) l)
    (mapM
       (fun element =>
          match element with
          | OfComment comment => printComment sourceCode options comment
          | _ =>
              let comment :=
                join nl
                  (map (formatCollected sourceCode options)
                     (collectComments sourceCode
                        (start (nodeLoc element)) (end_ (nodeLoc element)))) in
              text <- pp element ;;
              Ok (Some (ind ++ comment ++ nl ++ ind ++ tpl text))
          end) l).
Proof.
  intros Hall H. apply decides_mapM. revert Hall H. apply list_all_Forall.
  intros x Hx Hev. destruct (Hx Hev) as [Hpp _].
  destruct x; try apply decides_printComment;
    cbv zeta; (eapply decides_eq; [|apply andb_true_r]);
    (apply decides_bind; [exact Hpp | intros text; apply decides_Ok]).
Qed.

Lemma arrowBody_decides (b : bool) (body : Node) :
  decides b (pp body) ->
  decides b
    (match body with
     | OfBlockStatement block => printBlockStatement sourceCode options ps block
     | _ => text <- pp body ;; Ok (tpl text)
     end).
Proof.
  intros H.
  destruct body;
    try (eapply decides_eq; [|apply andb_true_r];
         apply decides_bind; [exact H | intros text; apply decides_Ok]).
  rewrite prettyPrint_eq in H. now apply decides_returnText in H.
Qed.

Lemma isIdentifierNamed_supported (name : string) (key : Node) :
  isIdentifierNamed name key = true -> supportedIf false key = true.
Proof. destruct key; try discriminate. reflexivity. Qed.

Ltac use_outcome :=
  repeat match goal with
    | IHc : everywhere _ ?c = true -> _, Hc : everywhere _ ?c = true |- _ =>
        destruct (IHc Hc) as [? ?]; clear IHc
    | IHo : option_all Node _ ?o |- _ =>
        destruct IHo as [? ?|]; simpl in *
    | IHb : BlockStatement_all Node _ _ |- _ =>
        destruct IHb as [? ? ?]; simpl in *
    | IHb : ClassBody_all Node _ _ |- _ =>
        destruct IHb as [? ? ?]; simpl in *
    | IHf : FunctionExpression_all Node _ _ |- _ =>
        destruct IHf as [? ? ? ? ?]; simpl in *
    | IHd : VariableDeclarator_all Node _ _ |- _ =>
        destruct IHd as [? ? ? ? ?]; simpl in *
    end.

Ltac unfold_printers :=
  unfold printProgram, printExpressionStatement, printVariableDeclaration,
    printIdentifier, printIfStatement, printFunctionDeclaration, printClassDeclaration,
    printClassElement, printFunctionExpression, printReturnStatement, printLiteral,
    printBinaryExpression, printUnaryExpression, printCallExpression,
    printMemberExpression, printArrayExpression, printObjectExpression, printProperty,
    printArrowFunctionExpression, printThisExpression, printSpreadElement,
    printConditionalExpression.

Ltac read_fields := cbn [bind id init class_body function_body params].

Ltac outcome_steps :=
  repeat first
    [ apply decides_Ok
    | eassumption
    | match goal with
      | Hs : forall isLast, decides _ (printStatement _ _ _ _ ?c isLast)
        |- decides _ (printStatement _ _ _ _ ?c _) => apply Hs
      end
    | apply decides_printComment
    | apply decides_indentation
    | apply printList_decides; assumption
    | apply printBody_decides; assumption
    | apply printBlockStatement_decides; simpl; assumption
    | apply declarations_decides; assumption
    | apply mapNonNull_decides; assumption
    | apply classElements_decides; assumption
    | apply arrowBody_decides; eassumption
    | apply decides_bind; [|intros ?]
    | progress (unfold printVariableDeclarator; rewrite ?Hind; read_fields) ].

Ltac boolean_equality :=
  match goal with
  | |- ?l = ?r => let l' := eval cbv beta in l in change (l' = r)
  end;
  cbn [block_body]; btauto.

Theorem outcome (node : Node) :
  everywhere ownPrinter node = true ->
  decides (supportedIf false node) (pp node)
  /\ forall isLast, decides (isStatement node && supportedIf false node) (ps node isLast).
Proof.
  induction node using Node_ind; intros Hev; simpl in Hev; split_andb;
    try discriminate.
  all: use_outcome.
  all: split; [|intros isLast].
  all: rewrite ?prettyPrint_eq, ?printStatement_eq.
  all: cbv beta iota delta [prettyPrintBody printStatementBody].
  all: rewrite ?Hind; cbn [bind].
  all: try apply decides_returnText.
  all: unfold_printers; rewrite ?Hind; read_fields.
  all: cbn [isStatement supportedIf andb].
  all: try (split; reflexivity).
  all: repeat match goal with
       | |- context [if isIdentifierNamed ?n ?k then _ else _] =>
           let E := fresh "E" in
           destruct (isIdentifierNamed n k) eqn:E;
           [rewrite (isIdentifierNamed_supported _ _ E) in *|]
       end.
  all: (eapply decides_eq; [outcome_steps|]).
  all: boolean_equality.
Qed.

End Outcome.

(** ** White space at the ends of a text *)

Lemma leadingWhiteSpace_trimStart (s : string) : leadingWhiteSpace (trimStart s) = false.
Proof.
  induction s as [|c s IH]; [reflexivity|].
  cbn [trimStart]. destruct (isWhiteSpace c) eqn:Hc; [exact IH | exact Hc].
Qed.

Lemma leadingWhiteSpace_trimEnd (s : string) :
  leadingWhiteSpace s = false -> leadingWhiteSpace (trimEnd s) = false.
Proof.
  destruct s as [|c s]; [reflexivity|]. cbn [leadingWhiteSpace trimEnd]. intros Hc.
  destruct (trimEnd s); rewrite ?Hc; exact Hc.
Qed.

Lemma trailingWhiteSpace_trimEnd (s : string) : trailingWhiteSpace (trimEnd s) = false.
Proof.
  induction s as [|c s IH]; [reflexivity|].
  cbn [trimEnd]. destruct (trimEnd s) as [|c' s'].
  - destruct (isWhiteSpace c) eqn:Hc; [reflexivity | exact Hc].
  - exact IH.
Qed.

Lemma trimStart_fixed (s : string) : leadingWhiteSpace s = false -> trimStart s = s.
Proof. destruct s as [|c s]; [reflexivity|]. simpl. now intros ->. Qed.

Lemma trimEnd_fixed (s : string) : trailingWhiteSpace s = false -> trimEnd s = s.
Proof.
  induction s as [|c s IH]; [reflexivity|].
  destruct s as [|c' s'].
  - simpl. now intros ->.
  - intros H. change (trailingWhiteSpace (String c' s') = false) in H.
    cbn [trimEnd] in *. rewrite (IH H). reflexivity.
Qed.

Lemma trim_fixed (s : string) :
  leadingWhiteSpace s = false -> trailingWhiteSpace s = false -> trim s = s.
Proof. intros H1 H2. unfold trim. now rewrite trimStart_fixed, trimEnd_fixed. Qed.

Lemma trim_ends (s : string) :
  leadingWhiteSpace (trim s) = false /\ trailingWhiteSpace (trim s) = false.
Proof.
  unfold trim. split.
  - apply leadingWhiteSpace_trimEnd, leadingWhiteSpace_trimStart.
  - apply trailingWhiteSpace_trimEnd.
Qed.

Lemma trailingWhiteSpace_append (s t : string) :
  trailingWhiteSpace (s ++ t)
  = match t with
    | EmptyString => trailingWhiteSpace s
    | _ => trailingWhiteSpace t
    end.
Proof.
  induction s as [|c s IH].
  - destruct t; reflexivity.
  - change (String c s ++ t) with (String c (s ++ t)).
    destruct t as [|c' t'].
    + now rewrite append_nil_r.
    + cbn [trailingWhiteSpace]. rewrite IH.
      destruct s; reflexivity.
Qed.

(** ** Line breaks after an expression *)

Lemma land_1 (n : Z) : (Z.land n 1 =? 0) = negb (Z.testbit n 0).
Proof.
  change 1 with (Z.ones 1). rewrite Z.land_ones by lia.
  rewrite Z.bit0_odd. change (2 ^ 1) with 2. rewrite Zmod_odd.
  now destruct (Z.odd n).
Qed.

Lemma land_2 (n : Z) : (Z.land n 2 =? 0) = negb (Z.testbit n 1).
Proof.
  assert (H : Z.land n 2 = if Z.testbit n 1 then 2 else 0).
  { apply Z.bits_inj'. intros i Hi. rewrite Z.land_spec.
    change 2 with (2 ^ 1). rewrite Z.pow2_bits_eqb by lia.
    destruct (Z.eqb_spec 1 i) as [<-|Hne].
    - rewrite andb_true_r. destruct (Z.testbit n 1); reflexivity.
    - rewrite andb_false_r. destruct (Z.testbit n 1).
      + rewrite Z.pow2_bits_eqb by lia. symmetry. now apply Z.eqb_neq.
      + now rewrite Z.bits_0. }
  rewrite H. now destruct (Z.testbit n 1).
Qed.

Lemma lineBreaks_lineFeeds (n : Z) : lineBreaks (Some n) = repeat_nat nl (lineFeeds n).
Proof.
  unfold lineBreaks, truthyNumber, hasFlag, lineFeeds.
  change LineBreakFlags.Before with 1. change LineBreakFlags.After with 2.
  rewrite land_1, land_2, !negb_involutive.
  destruct (Z.eqb_spec n 0) as [->|_]; [reflexivity|].
  destruct (Z.testbit n 0), (Z.testbit n 1); reflexivity.
Qed.



(** X2.  On a node of a statement variant the two switches agree:
    [printStatement] returns the text [prettyPrint] returns for the node,
    followed by a line feed unless [isLast] is true (a missing [isLast] counts
    as false), and throws what [prettyPrint] throws. *)
Theorem statement_is_printed_as_by_prettyPrint
    (sourceCode : string) (collectComments : string -> Z -> Z -> list Span)
    (printClassBody : ClassBody Node -> Options -> Result jsval)
    (options : Options) (statement : Node) (isLast : option bool) :
  isStatement statement = true ->
  printStatement sourceCode collectComments printClassBody options statement isLast
  = (text <- prettyPrint sourceCode collectComments printClassBody options statement ;;
     Ok (if truthy isLast then tpl text else tpl text ++ nl)).
Proof. apply printStatement_prettyPrint. Qed.

Lemma statement_is_printed_as_by_prettyPrint_witness :
  printStatement "const x = 10;" Example.noComments Example.noClassBody defaultOptions
    Example.constX None
  = (text <- prettyPrint "const x = 10;" Example.noComments Example.noClassBody
               defaultOptions Example.constX ;;
     Ok (tpl text ++ nl)).
Proof.
  apply (statement_is_printed_as_by_prettyPrint "const x = 10;" Example.noComments
           Example.noClassBody defaultOptions Example.constX None eq_refl).
Defined.

(** X3.  A body that holds statements only is printed as the texts of its
    statements, each as [prettyPrint] prints it, joined by single line feeds,
    with none after the last one: trimmed for a program; between the braces,
    each with the indentation before it and, under [lineBreak], a line feed
    inside it, for a block.  An empty program is printed as the empty string
    and an empty block as the two braces. *)
Theorem statements_of_a_body_are_joined_by_line_feeds
    (sourceCode : string) (collectComments : string -> Z -> Z -> list Span)
    (printClassBody : ClassBody Node -> Options -> Result jsval)
    (options : Options) (loc : Span) (body : list Node) :
  forallb isStatement body = true ->
  prettyPrint sourceCode collectComments printClassBody options (Program loc body)
  = (_ <- indentation options ;;
     texts <- mapM (prettyPrint sourceCode collectComments printClassBody options) body ;;
     Ok (Some (trim (joinStrings nl (map tpl texts)))))
  /\ prettyPrint sourceCode collectComments printClassBody options
       (OfBlockStatement {| block_loc := loc; block_body := body |})
     = (indentation <- indentation options ;;
        texts <- mapM (prettyPrint sourceCode collectComments printClassBody options) body ;;
        let break := if truthy (lineBreak options) then nl else "" in
        Ok (Some (indentation ++ "{" ++ break ++ joinStrings nl (map tpl texts)
                  ++ break ++ indentation ++ "}"))).
Proof.
  intros Hst. split; rewrite prettyPrint_eq; cbv beta iota delta [prettyPrintBody];
    unfold returnText, printProgram, printBlockStatement; cbn [block_body];
    destruct (indentation options) as [ind|e]; cbn [bind]; try reflexivity;
    rewrite printBody_statements by assumption;
    destruct (mapM _ body) as [texts|e]; cbn [bind]; try reflexivity.
  destruct (truthy (lineBreak options)); cbv zeta;
    rewrite ?append_assoc, ?append_nil_r; reflexivity.
Qed.

Lemma statements_of_a_body_are_joined_by_line_feeds_witness :
  prettyPrint "const x = 10;const x = 10;" Example.noComments Example.noClassBody
    defaultOptions (Program (Example.at_ 0 26) [Example.constX; Example.constXAt 13])
  = Ok (Some ("const   x =   10;;" ++ nl ++ "  const   x =   10;;")).
Proof.
  apply (proj1 (statements_of_a_body_are_joined_by_line_feeds "const x = 10;const x = 10;"
                  Example.noComments Example.noClassBody defaultOptions (Example.at_ 0 26)
                  [Example.constX; Example.constXAt 13] eq_refl)).
Defined.

(** X4.  What [prettyPrint] returns for a program is a string that neither
    starts nor ends with white space, whatever the body and the options are:
    the indentation before the first statement and the line feed after a final
    comment or [if] statement are trimmed away, and trimming the output again
    changes nothing. *)
Theorem program_output_is_trimmed
    (sourceCode : string) (collectComments : string -> Z -> Z -> list Span)
    (printClassBody : ClassBody Node -> Options -> Result jsval)
    (options : Options) (loc : Span) (body : list Node) (out : jsval) :
  prettyPrint sourceCode collectComments printClassBody options (Program loc body) = Ok out ->
  exists text,
    out = Some text
    /\ leadingWhiteSpace text = false
    /\ trailingWhiteSpace text = false
    /\ trim text = text.
Proof.
  rewrite prettyPrint_eq. cbv beta iota delta [prettyPrintBody].
  unfold returnText, printProgram. intros H.
  apply bind_Ok in H as (text & H & Hout). injection Hout as <-.
  apply bind_Ok in H as (ind & _ & H). apply bind_Ok in H as (output & _ & H).
  injection H as <-. exists (trim output).
  destruct (trim_ends output) as [H1 H2].
  split; [reflexivity | split; [exact H1 | split; [exact H2 | now apply trim_fixed]]].
Qed.

Lemma program_output_is_trimmed_witness :
  exists text,
    Some "const   x =   10;;" = Some text
    /\ leadingWhiteSpace text = false
    /\ trailingWhiteSpace text = false
    /\ trim text = text.
Proof.
  apply (program_output_is_trimmed "const x = 10;" Example.noComments Example.noClassBody
           defaultOptions (Example.at_ 0 13) [Example.constX]
           (Some "const   x =   10;;") eq_refl).
Defined.

(** ** The line feed after a statement *)

Lemma printStatement_missing_isLast
    (sourceCode : string) (collectComments : string -> Z -> Z -> list Span)
    (printClassBody : ClassBody Node -> Options -> Result jsval)
    (options : Options) (node : Node) (text : string) :
  printStatement sourceCode collectComments printClassBody options node None = Ok text ->
  exists front, text = front ++ nl.
Proof.
  rewrite printStatement_eq. cbv beta iota delta [printStatementBody]. cbn [truthy].
  intros H. apply bind_Ok in H as (ind & _ & H). apply bind_Ok in H as (output & _ & H).
  injection H as <-. now exists output.
Qed.

Lemma printIfStatement_line_feed
    (sourceCode : string) (collectComments : string -> Z -> Z -> list Span)
    (printClassBody : ClassBody Node -> Options -> Result jsval)
    (options : Options) (test consequent : Node) (alternate : option Node) (text : string) :
  printIfStatement options
    (prettyPrint sourceCode collectComments printClassBody options)
    (printStatement sourceCode collectComments printClassBody options)
    test consequent alternate = Ok text ->
  endsWith nl text = true.
Proof.
  unfold printIfStatement. intros H.
  apply bind_Ok in H as (ind & _ & H). apply bind_Ok in H as (testText & _ & H).
  apply bind_Ok in H as (consequentText & Hc & H).
  apply bind_Ok in H as (alternateText & Ha & H). injection H as <-.
  destruct alternate as [alternate|].
  - apply bind_Ok in Ha as (t & Ht & Ha). injection Ha as <-.
    destruct (printStatement_missing_isLast _ _ _ _ _ _ Ht) as (front & ->).
    rewrite <- !append_assoc. apply endsWith_append.
  - injection Ha as <-.
    destruct (printStatement_missing_isLast _ _ _ _ _ _ Hc) as (front & ->).
    rewrite append_nil_r, <- !append_assoc. apply endsWith_append.
Qed.

(** X5.  The text printed for an [if] statement, whenever one is returned,
    ends with a line feed, also when the statement is the last of its body
    ([isLast] true): [printIfStatement]
    prints its branches through [printStatement] without the [isLast]
    argument, so a line feed follows each branch. *)
Theorem if_statement_ends_with_a_line_feed
    (sourceCode : string) (collectComments : string -> Z -> Z -> list Span)
    (printClassBody : ClassBody Node -> Options -> Result jsval)
    (options : Options) (loc : Span) (test consequent : Node) (alternate : option Node) :
  (forall out,
     prettyPrint sourceCode collectComments printClassBody options
       (IfStatement loc test consequent alternate) = Ok out ->
     exists text, out = Some text /\ endsWith nl text = true)
  /\ (forall text,
        printStatement sourceCode collectComments printClassBody options
          (IfStatement loc test consequent alternate) (Some true) = Ok text ->
        endsWith nl text = true).
Proof.
  split.
  - intros out. rewrite prettyPrint_eq. cbv beta iota delta [prettyPrintBody].
    unfold returnText. intros H. apply bind_Ok in H as (text & H & Hout).
    injection Hout as <-. exists text. split; [reflexivity|].
    now apply printIfStatement_line_feed in H.
  - intros text. rewrite printStatement_eq. cbv beta iota delta [printStatementBody].
    cbn [truthy]. intros H. apply bind_Ok in H as (ind & _ & H).
    apply bind_Ok in H as (output & H & Hout). injection Hout as <-.
    now apply printIfStatement_line_feed in H.
Qed.

Lemma if_statement_ends_with_a_line_feed_witness :
  exists text,
    Some ("  if (  x)   return ;" ++ nl) = Some text /\ endsWith nl text = true.
Proof.
  apply (proj1 (if_statement_ends_with_a_line_feed "if (x) return;" Example.noComments
                  Example.noClassBody defaultOptions (Example.at_ 0 14)
                  (Identifier (Example.at_ 4 5) "x")
                  (ReturnStatement (Example.at_ 7 14) None) None)
           (Some ("  if (  x)   return ;" ++ nl)) eq_refl).
Defined.

(** X6.  The [lineBreak] field of a binary or conditional expression only
    appends line feeds at the end of the text the expression has without it:
    one for each of the flags Before and After it holds, so Before puts its
    line feed after the expression as After does, and the flag Both, a bit of
    its own, adds none. *)
Theorem line_break_flags_add_trailing_line_feeds
    (sourceCode : string) (collectComments : string -> Z -> Z -> list Span)
    (printClassBody : ClassBody Node -> Options -> Result jsval)
    (options : Options) (lineBreak : option Z) :
  (forall loc operator left_ right_,
     prettyPrint sourceCode collectComments printClassBody options
       (BinaryExpression loc operator left_ right_ lineBreak)
     = (text <- prettyPrint sourceCode collectComments printClassBody options
                  (BinaryExpression loc operator left_ right_ None) ;;
        Ok (Some (tpl text ++ lineBreaks lineBreak))))
  /\ (forall loc test consequent alternate,
        prettyPrint sourceCode collectComments printClassBody options
          (ConditionalExpression loc test consequent alternate lineBreak)
        = (text <- prettyPrint sourceCode collectComments printClassBody options
                     (ConditionalExpression loc test consequent alternate None) ;;
           Ok (Some (tpl text ++ lineBreaks lineBreak))))
  /\ lineBreaks lineBreak
     = match lineBreak with
       | Some flags => repeat_nat nl (lineFeeds flags)
       | None => ""
       end
  /\ lineFeeds LineBreakFlags.None = 0%nat
  /\ lineFeeds LineBreakFlags.Before = 1%nat
  /\ lineFeeds LineBreakFlags.After = 1%nat
  /\ lineFeeds LineBreakFlags.Both = 0%nat.
Proof.
  split; [|split; [|split; [|repeat split]]].
  - intros loc operator left_ right_. rewrite !prettyPrint_eq.
    cbv beta iota delta [prettyPrintBody]. unfold returnText, printBinaryExpression.
    destruct (indentation options) as [ind|e]; cbn [bind]; [|reflexivity].
    destruct (prettyPrint _ _ _ _ left_) as [leftText|e]; cbn [bind]; [|reflexivity].
    destruct (prettyPrint _ _ _ _ right_) as [rightText|e]; cbn [bind tpl]; [|reflexivity].
    change (lineBreaks None) with "". now rewrite append_nil_r.
  - intros loc test consequent alternate. rewrite !prettyPrint_eq.
    cbv beta iota delta [prettyPrintBody]. unfold returnText, printConditionalExpression.
    destruct (indentation options) as [ind|e]; cbn [bind]; [|reflexivity].
    destruct (prettyPrint _ _ _ _ test) as [testText|e]; cbn [bind]; [|reflexivity].
    destruct (prettyPrint _ _ _ _ consequent) as [consequentText|e]; cbn [bind];
      [|reflexivity].
    destruct (prettyPrint _ _ _ _ alternate) as [alternateText|e]; cbn [bind tpl];
      [|reflexivity].
    change (lineBreaks None) with "". now rewrite append_nil_r.
  - destruct lineBreak as [flags|]; [apply lineBreaks_lineFeeds | reflexivity].
Qed.

(** X7.  The options [printWidth], [commentPlacement] and [commentTypes] are
    never read: two option objects that agree on [tabWidth], [useTabs],
    [lineBreak], [commentFormat] and [commentPlacementFlag] give the same
    result, a thrown error included, on every tree of which no node goes to
    [printClassBody]. *)
Theorem unread_options_do_not_change_the_output
    (sourceCode : string) (collectComments : string -> Z -> Z -> list Span)
    (printClassBody : ClassBody Node -> Options -> Result jsval)
    (options1 options2 : Options) (node : Node) :
  tabWidth options1 = tabWidth options2 ->
  useTabs options1 = useTabs options2 ->
  lineBreak options1 = lineBreak options2 ->
  commentFormat options1 = commentFormat options2 ->
  commentPlacementFlag options1 = commentPlacementFlag options2 ->
  everywhere ownPrinter node = true ->
  prettyPrint sourceCode collectComments printClassBody options1 node
  = prettyPrint sourceCode collectComments printClassBody options2 node.
Proof.
  intros Htab Htabs Hbreak Hformat Hflag. apply sameLayout_prettyPrint.
  unfold sameLayout, indentation, after. now rewrite Htab, Htabs, Hbreak, Hformat, Hflag.
Qed.

Lemma unread_options_do_not_change_the_output_witness :
  prettyPrint CommentExample.sourceCode Example.noComments Example.noClassBody
    (withPrintWidth (Some 10)
       (withCommentTypes (Some CommentTypeFlags.None)
          (withCommentPlacement (Some "before") (Some CommentPlacementFlags.After)
             defaultOptions)))
    CommentExample.program
  = prettyPrint CommentExample.sourceCode Example.noComments Example.noClassBody
      defaultOptions CommentExample.program.
Proof.
  apply (unread_options_do_not_change_the_output CommentExample.sourceCode
           Example.noComments Example.noClassBody _ defaultOptions CommentExample.program
           eq_refl eq_refl eq_refl eq_refl eq_refl eq_refl).
Defined.

(** ** Partial option objects *)

Lemma sameLayout_withFalsyDefaults (options : Options) :
  sameLayout (withFalsyDefaults options) options.
Proof.
  unfold sameLayout, indentation, after, withFalsyDefaults; cbn.
  destruct (useTabs options) as [[|]|], (tabWidth options) as [n|],
    (lineBreak options) as [[|]|], (commentPlacementFlag options) as [flag|];
    repeat split.
Qed.

(** X8.  An options object is used as it is given, not completed from
    [defaultOptions]: a missing [tabWidth] counts as 0, a missing [useTabs] or
    [lineBreak] as false, and a missing [commentPlacementFlag] as no flag, on
    every tree of which no node goes to [printClassBody]. *)
Theorem missing_options_count_as_zero_and_false
    (sourceCode : string) (collectComments : string -> Z -> Z -> list Span)
    (printClassBody : ClassBody Node -> Options -> Result jsval)
    (options : Options) (node : Node) :
  everywhere ownPrinter node = true ->
  prettyPrint sourceCode collectComments printClassBody (withFalsyDefaults options) node
  = prettyPrint sourceCode collectComments printClassBody options node.
Proof. apply sameLayout_prettyPrint, sameLayout_withFalsyDefaults. Qed.

Lemma missing_options_count_as_zero_and_false_witness :
  prettyPrint "const x = 10;" Example.noComments Example.noClassBody
    (withFalsyDefaults emptyOptions) (Program (Example.at_ 0 13) [Example.constX])
  = prettyPrint "const x = 10;" Example.noComments Example.noClassBody
      emptyOptions (Program (Example.at_ 0 13) [Example.constX])
  /\ prettyPrint "const x = 10;" Example.noComments Example.noClassBody
       emptyOptions (Program (Example.at_ 0 13) [Example.constX])
     = Ok (Some "const x = 10")
  /\ prettyPrint "const x = 10;" Example.noComments Example.noClassBody
       defaultOptions (Program (Example.at_ 0 13) [Example.constX])
     = Ok (Some "const   x =   10;;").
Proof.
  split; [|split; reflexivity].
  apply (missing_options_count_as_zero_and_false "const x = 10;" Example.noComments
           Example.noClassBody emptyOptions (Program (Example.at_ 0 13) [Example.constX])
           eq_refl).
Defined.

(** ** Comments under a missing comment format *)

Lemma leadingWhiteSpace_undefined (n : nat) :
  leadingWhiteSpace (repeat_nat "undefined" n) = false.
Proof. destruct n; reflexivity. Qed.

Lemma trailingWhiteSpace_undefined (n : nat) :
  trailingWhiteSpace (repeat_nat "undefined" n) = false.
Proof.
  induction n as [|n IH]; [reflexivity|].
  cbn [repeat_nat]. rewrite trailingWhiteSpace_append.
  destruct (repeat_nat "undefined" n); [reflexivity | exact IH].
Qed.

Lemma join_undefined {A : Type} (l : list A) :
  join nl (map (fun _ => None) l) = repeat_nat nl (List.length l - 1).
Proof.
  unfold join. induction l as [|x [|y l] IH]; [reflexivity | reflexivity |].
  cbn [map] in *. rewrite joinStrings_cons, IH. cbn [List.length joinElement].
  replace (S (S (List.length l)) - 1)%nat with (S (S (List.length l) - 1)) by lia.
  reflexivity.
Qed.

Section MissingFormat.

Variable sourceCode : string.
Variable collectComments : string -> Z -> Z -> list Span.
Variable printClassBody : ClassBody Node -> Options -> Result jsval.
Variable options : Options.

Variable ind : string.
Hypothesis Hind : indentation options = Ok ind.
Hypothesis Hformat : commentFormat options = None.

Local Abbreviation pp := (prettyPrint sourceCode collectComments printClassBody options).
Local Abbreviation ps := (printStatement sourceCode collectComments printClassBody options).

Lemma printComment_undefined (comment : Comment) :
  printComment sourceCode options comment = Ok None.
Proof. unfold printComment. now rewrite Hind, Hformat. Qed.

Lemma printBody_undefined (comments : list Comment) (output : string) :
  printBody sourceCode options ps (map OfComment comments) output
  = Ok (output ++ repeat_nat "undefined" (List.length comments)).
Proof.
  unfold printBody. generalize (Z.of_nat (List.length (map OfComment comments)) - 1) as final.
  generalize 0 as index. revert output.
  induction comments as [|comment comments IH]; intros output index final.
  - simpl. now rewrite append_nil_r.
  - cbn [map forEach]. rewrite printComment_undefined. cbn [bind tpl].
    rewrite IH, append_assoc. reflexivity.
Qed.

Lemma classComments_undefined (comments : list Comment) :
  mapM
    (fun element =>
       match element with
       | OfComment comment => printComment sourceCode options comment
       | _ =>
           let comment :=
             join nl
               (map (formatCollected sourceCode options)
                  (collectComments sourceCode
                     (start (nodeLoc element)) (end_ (nodeLoc element)))) in
           text <- pp element ;;
           Ok (Some (ind ++ comment ++ nl ++ ind ++ tpl text))
       end) (map OfComment comments)
  = Ok (map (fun _ => None) comments).
Proof.
  induction comments as [|comment comments IH]; [reflexivity|].
  cbn [map mapM]. rewrite printComment_undefined. cbn [bind].
  cbn [map] in IH. now rewrite IH.
Qed.

End MissingFormat.

(** X9.  Under an options object without [commentFormat], [printComment]
    returns [undefined] for every comment once the indentation is computed.
    The body of a program appends it as the text [undefined], so a program of
    n comments is printed as n times [undefined], while the elements of a
    class body are joined with [undefined] as the empty string, so a class of
    n comments is printed with n - 1 line feeds between its braces and
    nothing of the comments. *)
Theorem comments_without_a_comment_format
    (sourceCode : string) (collectComments : string -> Z -> Z -> list Span)
    (printClassBody : ClassBody Node -> Options -> Result jsval)
    (options : Options) :
  commentFormat options = None ->
  (forall comment,
     prettyPrint sourceCode collectComments printClassBody options (OfComment comment)
     = (_ <- indentation options ;; Ok None))
  /\ (forall loc comments,
        prettyPrint sourceCode collectComments printClassBody options
          (Program loc (map OfComment comments))
        = (_ <- indentation options ;;
           Ok (Some (repeat_nat "undefined" (List.length comments)))))
  /\ (forall loc id bodyLoc comments,
        prettyPrint sourceCode collectComments printClassBody options
          (ClassDeclaration loc id
             {| class_body_loc := bodyLoc; class_body := map OfComment comments |})
        = (indentation <- indentation options ;;
           idText <- prettyPrint sourceCode collectComments printClassBody options id ;;
           Ok (Some (indentation ++ "class " ++ tpl idText ++ " {"
                     ++ repeat_nat nl (List.length comments - 1) ++ nl
                     ++ indentation ++ "}")))).
Proof.
  intros Hformat. split; [|split].
  - intros comment. rewrite prettyPrint_eq. cbv beta iota delta [prettyPrintBody].
    unfold printComment. now rewrite Hformat.
  - intros loc comments. rewrite prettyPrint_eq. cbv beta iota delta [prettyPrintBody].
    unfold returnText, printProgram.
    destruct (indentation options) as [ind|e] eqn:Hind; cbn [bind]; [|reflexivity].
    rewrite (printBody_undefined _ _ _ _ ind Hind Hformat). cbn [bind].
    rewrite trim_fixed;
      [reflexivity | apply leadingWhiteSpace_undefined | apply trailingWhiteSpace_undefined].
  - intros loc id bodyLoc comments. rewrite prettyPrint_eq.
    cbv beta iota delta [prettyPrintBody]. unfold returnText, printClassDeclaration.
    cbn [class_body].
    destruct (indentation options) as [ind|e] eqn:Hind; cbn [bind]; [|reflexivity].
    assert (E := classComments_undefined sourceCode collectComments printClassBody options
                   ind Hind Hformat comments).
    cbv zeta in E. rewrite E. cbn [bind].
    destruct (prettyPrint _ _ _ _ id) as [idText|e]; cbn [bind]; [|reflexivity].
    now rewrite join_undefined.
Qed.

Lemma comments_without_a_comment_format_witness :
  prettyPrint CommentExample.sourceCode Example.noComments Example.noClassBody
    (withCommentFormat None defaultOptions)
    (Program (Example.at_ 0 24) (map OfComment [CommentExample.note; CommentExample.note]))
  = Ok (Some "undefinedundefined").
Proof.
  apply (proj1 (proj2 (comments_without_a_comment_format CommentExample.sourceCode
                         Example.noComments Example.noClassBody
                         (withCommentFormat None defaultOptions) eq_refl))
           (Example.at_ 0 24) [CommentExample.note; CommentExample.note]).
Defined.

(** ** Class elements *)



(** ** Statements and expressions of one line *)

Lemma returned_Ok {A : Type} (Q : A -> Prop) (a : A) : Q a -> returned Q (Ok a).
Proof. intros H a' E. now injection E as <-. Qed.

Lemma returned_bind {A B : Type} (P : A -> Prop) (Q : B -> Prop)
    (r : Result A) (k : A -> Result B) :
  returned P r -> (forall a, P a -> returned Q (k a)) -> returned Q (bind r k).
Proof.
  intros Hr Hk b E. apply bind_Ok in E as (a & Ea & Eb). exact (Hk a (Hr a Ea) b Eb).
Qed.

Lemma returned_mapM {A B : Type} (Q : B -> Prop) (f : A -> Result B) (l : list A) :
  Forall (fun x => returned Q (f x)) l -> returned (Forall Q) (mapM f l).
Proof.
  induction 1 as [|x l Hx _ IH]; cbn [mapM]; [apply returned_Ok; constructor|].
  apply (returned_bind Q); [exact Hx | intros y Hy].
  apply (returned_bind (Forall Q)); [exact IH | intros ys Hys].
  apply returned_Ok. now constructor.
Qed.

Lemma countChar_joinStrings_none (c : ascii) (separator : string) (l : list string) :
  countChar c separator = 0%nat -> Forall (fun s => countChar c s = 0%nat) l ->
  countChar c (joinStrings separator l) = 0%nat.
Proof.
  intros Hsep Hl. rewrite countChar_joinStrings, Hsep, Nat.mul_0_r, Nat.add_0_r.
  induction Hl as [|s l Hs _ IH]; [reflexivity|]. simpl. now rewrite Hs, IH.
Qed.

Lemma countChar_join_none (c : ascii) (separator : string) (l : list jsval) :
  countChar c separator = 0%nat -> Forall (fun v => countChar c (tpl v) = 0%nat) l ->
  countChar c (join separator l) = 0%nat.
Proof.
  intros Hsep Hl. apply countChar_joinStrings_none; [assumption|].
  induction Hl as [|v l Hv _ IH]; cbn [map]; constructor; [|exact IH].
  destruct v; [exact Hv | reflexivity].
Qed.

Lemma countChar_repeat_nat_none (c : ascii) (s : string) (n : nat) :
  countChar c s = 0%nat -> countChar c (repeat_nat s n) = 0%nat.
Proof.
  intros Hs. induction n as [|n IH]; [reflexivity|].
  cbn [repeat_nat]. now rewrite countChar_append, Hs, IH.
Qed.

Lemma indentation_noLineFeed (options : Options) (ind : string) :
  indentation options = Ok ind -> countChar lineFeed ind = 0%nat.
Proof.
  unfold indentation, repeat. destruct (truthy (useTabs options)).
  - intros E. now injection E as <-.
  - destruct (tabWidth options) as [n|].
    + destruct (n <? 0); [discriminate|]. intros E. injection E as <-.
      now apply countChar_repeat_nat_none.
    + intros E. now injection E as <-.
Qed.

Lemma lineBreaks_none (lineBreak : option Z) :
  noLineBreak lineBreak = true -> lineBreaks lineBreak = "".
Proof.
  unfold noLineBreak, lineBreaks. intros H. apply andb_true_iff in H as [H1 H2].
  apply negb_true_iff in H1, H2. rewrite H1, H2. now destruct (truthyNumber lineBreak).
Qed.

Section OneLine.

Variable sourceCode : string.
Variable collectComments : string -> Z -> Z -> list Span.
Variable printClassBody : ClassBody Node -> Options -> Result jsval.
Variable options : Options.

Local Abbreviation pp := (prettyPrint sourceCode collectComments printClassBody options).
Local Abbreviation ps := (printStatement sourceCode collectComments printClassBody options).

Local Abbreviation quiet := (fun s : string => countChar lineFeed s = 0%nat).
Local Abbreviation quietValue := (fun v : jsval => countChar lineFeed (tpl v) = 0%nat).

Local Abbreviation IH := (fun node => oneLine node = true -> returned quietValue (pp node)).

Lemma indentation_returned : returned quiet (indentation options).
Proof. intros ind. apply indentation_noLineFeed. Qed.

Lemma printList_oneLine (l : list Node) :
  list_all Node IH l -> forallb oneLine l = true -> returned quiet (printList pp l).
Proof.
  intros Hall H. unfold printList.
  apply (returned_bind (Forall quietValue)).
  - apply returned_mapM.
    induction Hall as [|x Hx l _ IHl]; cbn [forallb] in H; constructor;
      apply andb_true_iff in H as [H1 H2]; auto.
  - intros texts Htexts. apply returned_Ok. now apply countChar_join_none.
Qed.

Lemma mapNonNull_oneLine (l : list (option Node)) :
  list_all (option Node) (option_all Node IH) l ->
  forallb (optionb oneLine) l = true ->
  returned (Forall quietValue) (mapNonNull pp l).
Proof.
  intros Hall H.
  induction Hall as [|element Helement l _ IHl]; cbn [forallb] in H;
    [apply returned_Ok; constructor|].
  apply andb_true_iff in H as [H1 H2].
  destruct Helement as [node Hnode|]; cbn [optionb mapNonNull] in *; [|apply (IHl H2)].
  apply (returned_bind quietValue); [now apply Hnode | intros text Htext].
  apply (returned_bind (Forall quietValue)); [apply (IHl H2) | intros texts Htexts].
  apply returned_Ok. now constructor.
Qed.

Ltac count :=
  cbv zeta; cbn [tpl];
  repeat match goal with
    | |- context [if ?b then _ else _] => destruct b
    | H : noLineFeed _ = true |- _ => apply Nat.eqb_eq in H
    | H : noLineBreak _ = true |- _ => rewrite (lineBreaks_none _ H); clear H
    | |- context [kindText ?k] => is_var k; destruct k
    end;
  rewrite ?countChar_append;
  repeat match goal with
    | H : countChar lineFeed _ = 0%nat |- _ => rewrite H; clear H
    | H : Forall _ ?l |- context [joinStrings _ ?l] =>
        rewrite (countChar_joinStrings_none lineFeed ", " l eq_refl H); clear H
    | H : Forall _ ?l |- context [join _ ?l] =>
        rewrite (countChar_join_none lineFeed ", " l eq_refl H); clear H
    end;
  reflexivity.

Ltac steps leaf :=
  repeat first
    [ rewrite bind_assoc
    | progress cbn [bind id init]
    | apply returned_Ok; count
    | match goal with
      | |- returned _ (bind _ _) =>
          eapply returned_bind;
          [ first [ eassumption
                  | apply indentation_returned
                  | apply printList_oneLine; assumption
                  | leaf ]
          | cbv beta; intros ? ? ]
      end
    | progress unfold printVariableDeclarator ].

Lemma printVariableDeclarator_oneLine (d : VariableDeclarator Node) :
  VariableDeclarator_all Node IH d ->
  oneLine (id d) && optionb oneLine (init d) = true ->
  returned quiet (printVariableDeclarator options pp d).
Proof.
  intros Hall H. destruct Hall as [loc i Hi o Ho]. cbn [id init] in *.
  apply andb_true_iff in H as [H1 H2]. specialize (Hi H1).
  unfold printVariableDeclarator. cbn [id init].
  destruct Ho as [node Hnode|]; cbn [optionb] in *; [specialize (Hnode H2)|]; steps fail.
Qed.

Lemma declarations_oneLine (l : list (VariableDeclarator Node)) :
  list_all (VariableDeclarator Node) (VariableDeclarator_all Node IH) l ->
  forallb (fun d => oneLine (id d) && optionb oneLine (init d)) l = true ->
  returned (Forall quiet) (mapM (printVariableDeclarator options pp) l).
Proof.
  intros Hall H. apply returned_mapM.
  induction Hall as [|d Hd l _ IHl]; cbn [forallb] in H; constructor;
    apply andb_true_iff in H as [H1 H2]; auto.
  now apply printVariableDeclarator_oneLine.
Qed.

Lemma arrowBody_oneLine (body : Node) :
  oneLine body = true -> returned quietValue (pp body) ->
  returned quiet
    (match body with
     | OfBlockStatement block => printBlockStatement sourceCode options ps block
     | _ => text <- pp body ;; Ok (tpl text)
     end).
Proof. intros Hone H. destruct body; try discriminate Hone; steps fail. Qed.

Ltac use_oneLine :=
  repeat match goal with
    | IHc : oneLine ?c = true -> _, Hc : oneLine ?c = true |- _ => specialize (IHc Hc)
    | IHo : option_all Node _ ?o |- _ => destruct IHo as [? ?|]; cbn [optionb] in *
    | IHd : VariableDeclarator_all Node _ _ |- _ =>
        destruct IHd as [? ? ? ? ?]; cbn [id init optionb] in *; split_andb
    end.

Ltac unfold_printers :=
  unfold returnText, printExpressionStatement, printVariableDeclaration,
    printIdentifier, printReturnStatement, printLiteral,
    printBinaryExpression, printUnaryExpression, printCallExpression,
    printMemberExpression, printArrayExpression, printObjectExpression, printProperty,
    printArrowFunctionExpression, printThisExpression, printSpreadElement,
    printConditionalExpression.

Theorem oneLine_quiet (node : Node) :
  oneLine node = true -> returned quietValue (pp node).
Proof.
  induction node using Node_ind; intros Hone; simpl in Hone; try discriminate Hone;
    split_andb.
  all: use_oneLine.
  all: rewrite prettyPrint_eq; cbv beta iota delta [prettyPrintBody].
  all: unfold_printers.
  all: steps ltac:(first [ apply declarations_oneLine; assumption
                         | apply mapNonNull_oneLine; assumption
                         | apply arrowBody_oneLine; assumption ]).
Qed.

End OneLine.

(** X11.  An expression, and a statement without a body (an expression
    statement, a declaration, a return statement), is printed on one line
    whatever the options are, [printWidth] and [lineBreak] included: if none
    of its names, literals and operators holds a line feed and none of its
    expressions has a Before or After flag in its [lineBreak] field, the text
    [prettyPrint] returns holds no line feed. *)
Theorem simple_statements_and_expressions_stay_on_one_line
    (sourceCode : string) (collectComments : string -> Z -> Z -> list Span)
    (printClassBody : ClassBody Node -> Options -> Result jsval)
    (options : Options) (node : Node) (out : jsval) :
  oneLine node = true ->
  prettyPrint sourceCode collectComments printClassBody options node = Ok out ->
  exists text, out = Some text /\ countChar lineFeed text = 0%nat.
Proof.
  intros Hone Hout.
  assert (Hquiet := oneLine_quiet sourceCode collectComments printClassBody options
                      node Hone out Hout).
  destruct out as [text|]; [now exists text|].
  rewrite prettyPrint_eq in Hout. cbv beta iota delta [prettyPrintBody] in Hout.
  destruct node; try discriminate Hone; unfold returnText in Hout;
    apply bind_Ok in Hout as (text & _ & Hout); discriminate Hout.
Qed.

Lemma simple_statements_and_expressions_stay_on_one_line_witness :
  exists text,
    Some "    1111 +   2222 +   3333 +   4444;" = Some text
    /\ countChar lineFeed text = 0%nat.
Proof.
  apply (simple_statements_and_expressions_stay_on_one_line WidthExample.sourceCode
           Example.noComments Example.noClassBody (withPrintWidth (Some 10) defaultOptions)
           (ExpressionStatement (Example.at_ 0 26) WidthExample.chain)
           (Some "    1111 +   2222 +   3333 +   4444;") eq_refl eq_refl).
Defined.
